(** * Shipment-document agents: identifier extraction and sheet reconciliation

    A shallow embedding of the three pipeline variants of the repository:

    - [src/main.py]   : keyword search for the B/L number
                        ([_get_alphanumeric_block], [extract_bl_number_from_pdf]);
    - [src/main_1.py] : single-field extraction through a language model
                        ([extract_bl_number_llm_tool]);
    - [src/main_2.py] : two-field JSON extraction through a language model
                        ([extract_shipping_details_llm_tool]) and the sheet
                        lookup of [main] with [update_sheet_cell].

    Python [str] values are modelled as [string]; the [str] methods used by
    the code ([upper], [strip], [find], [in], [replace], slicing) are given
    on the ASCII range, where a character has at most one upper-case form and
    upper-casing keeps the length of a string.  Python integers are [Z].  A
    PDF is represented by the list of texts that [page.extract_text()] gives
    for its pages.  The language-model service and [json.loads] are external
    to the repository: the first is an oracle that answers a request with a
    text, with no text, or by raising; the second is a parameter of the
    development. *)

From Stdlib Require Import ZArith Lia Ascii.
From Stdlib Require String.
From stdpp Require Import gmap strings list pretty.

(** ** Python string primitives *)

Module PyStr.

Definition len (s : string) : Z := Z.of_nat (String.length s).

(** [c in s] for a one-character [c]. *)
Fixpoint char_in (c : ascii) (s : string) : bool :=
  match s with
  | "" => false
  | String d s' => Ascii.eqb c d || char_in c s'
  end.

(** [s.startswith(sub)]. *)
Fixpoint startswith (s sub : string) : bool :=
  match sub, s with
  | "", _ => true
  | String _ _, "" => false
  | String a sub', String b s' => Ascii.eqb a b && startswith s' sub'
  end.

(** [sub in s]. *)
Fixpoint contains (s sub : string) : bool :=
  startswith s sub ||
  match s with
  | "" => false
  | String _ s' => contains s' sub
  end.

(** [s.find(sub)]: lowest index of an occurrence, [-1] when there is none. *)
Fixpoint find (s sub : string) : Z :=
  if startswith s sub then 0%Z
  else match s with
       | "" => (-1)%Z
       | String _ s' =>
           let r := find s' sub in
           if (r <? 0)%Z then (-1)%Z else (r + 1)%Z
       end.

Fixpoint drop (n : nat) (s : string) : string :=
  match n, s with
  | O, _ => s
  | S _, "" => ""
  | S n', String _ s' => drop n' s'
  end.

Fixpoint take (n : nat) (s : string) : string :=
  match n, s with
  | O, _ => ""
  | S _, "" => ""
  | S n', String c s' => String c (take n' s')
  end.

(** A slice bound as Python resolves it: a negative bound counts from the
    end and is clamped at 0. *)
Definition slice_index (s : string) (i : Z) : nat :=
  Z.to_nat (if (i <? 0)%Z then Z.max 0 (i + len s) else i).

(** [s[start:]] and [s[:stop]]. *)
Definition slice_from (s : string) (start : Z) : string :=
  drop (slice_index s start) s.
Definition slice_to (s : string) (stop : Z) : string :=
  take (slice_index s stop) s.

Definition ascii_lowercase : string := "abcdefghijklmnopqrstuvwxyz".
Definition ascii_uppercase : string := "ABCDEFGHIJKLMNOPQRSTUVWXYZ".
Definition ascii_letters : string := ascii_lowercase +:+ ascii_uppercase.
Definition digits : string := "0123456789".

Definition upper_char (c : ascii) : ascii :=
  if char_in c ascii_lowercase then ascii_of_N (N_of_ascii c - 32) else c.

(** [s.upper()]. *)
Fixpoint upper (s : string) : string :=
  match s with
  | "" => ""
  | String c s' => String (upper_char c) (upper s')
  end.

(** The characters [str.strip()] removes: tab, line feed, vertical tab,
    form feed, carriage return, the four separators 28..31 and space. *)
Definition isspace (c : ascii) : bool :=
  let n := N_of_ascii c in
  ((9 <=? n) && (n <=? 13) || (28 <=? n) && (n <=? 32))%N.

Fixpoint lstrip (s : string) : string :=
  match s with
  | "" => ""
  | String c s' => if isspace c then lstrip s' else s
  end.

Fixpoint rstrip (s : string) : string :=
  match s with
  | "" => ""
  | String c s' =>
      match rstrip s' with
      | "" => if isspace c then "" else String c ""
      | r => String c r
      end
  end.

(** [s.strip()]. *)
Definition strip (s : string) : string := rstrip (lstrip s).

(** [s.replace(old, new)] for a non-empty [old]: a single scan from the
    left; [skip] counts the characters of the occurrence just replaced that
    are still to be passed over. *)
Fixpoint replace_from (skip : nat) (s old new : string) : string :=
  match s with
  | "" => ""
  | String c s' =>
      match skip with
      | S k => replace_from k s' old new
      | O =>
          if startswith s old
          then new +:+ replace_from (String.length old - 1) s' old new
          else String c (replace_from 0 s' old new)
      end
  end.
Definition replace (s old new : string) : string := replace_from 0 s old new.

(** Truth value of a string: non-empty. *)
Definition truthy (s : string) : bool :=
  match s with "" => false | _ => true end.

Definition LF : string := String "010"%char "".
Definition CR : string := String "013"%char "".

End PyStr.

Import PyStr.

(** ** Text extraction (the page loop shared by the three variants) *)

Definition normalize_page (page_text : string) : string :=
  replace (replace (replace page_text LF " ") CR " ") "  " " ".

Definition extract_text (pages : list string) : string :=
  fold_left (fun full_text page => full_text +:+ normalize_page page) pages "".

(** ** [src/main.py]: the keyword search *)

Definition valid_chars : string := ascii_letters +:+ digits.

Fixpoint block_loop (bl_id rest : string) : string :=
  match rest with
  | "" => bl_id
  | String char rest' =>
      if char_in char valid_chars
      then block_loop (bl_id +:+ String char "") rest'
      else if truthy bl_id then bl_id
      else block_loop bl_id rest'
  end.

Definition _get_alphanumeric_block (text : string) (start_index : Z) : string :=
  block_loop "" (slice_from text start_index).

Definition keywords : list string :=
  ["B/L:"; "BL:"; "B/L No."; "Bill of Lading Number:"; "Shipment No."].

Definition BL_Number_Not_Found : string := "BL_Number_Not_Found".

Fixpoint keyword_loop (full_text full_text_upper : string) (kws : list string)
  : string :=
  match kws with
  | [] => BL_Number_Not_Found
  | keyword :: kws' =>
      let keyword_upper := upper keyword in
      if contains full_text_upper keyword_upper then
        let start_index := find full_text_upper keyword_upper in
        let search_start := (start_index + len keyword_upper)%Z in
        let found_id := upper (_get_alphanumeric_block full_text search_start) in
        if truthy found_id then "BL-" +:+ found_id
        else keyword_loop full_text full_text_upper kws'
      else keyword_loop full_text full_text_upper kws'
  end.

(** The search on the text already extracted (lines 137-164). *)
Definition find_bl_number (full_text : string) : string :=
  keyword_loop full_text (upper full_text) keywords.

Definition extract_bl_number_from_pdf (pages : list string) : string :=
  find_bl_number (extract_text pages).

(** ** Exceptions and the language-model service *)

(** Instances of [Exception]: the two classes the modelled code raises
    itself, and any other class by its name. *)
Inductive exn : Type :=
  | AttributeError (msg : string)
  | JSONDecodeError (msg : string)
  | OtherException (class_name msg : string).

(** A call either returns a value or raises. *)
Inductive result (A : Type) : Type :=
  | Return (a : A)
  | Raise (e : exn).
Arguments Return {A} a.
Arguments Raise {A} e.

Global Instance result_ret : MRet result := fun A a => Return a.
Global Instance result_bind : MBind result := fun A B k m =>
  match m with
  | Return a => k a
  | Raise e => Raise e
  end.

(** [try: body except Exception as e: handler e]. *)
Definition try_except {A : Type} (body : result A) (handler : exn -> result A)
  : result A :=
  match body with
  | Return a => Return a
  | Raise e => handler e
  end.

(** The arguments of [client.models.generate_content]. *)
Record request : Type := mk_request {
  model : string;
  contents : string;
  temperature : string
}.

(** The service: [genai.Client()] followed by [generate_content] either raises
    or gives a response whose [text] is a string or [None]. *)
Definition llm_service : Type := request -> result (option string).

(** The request both tools send: model, prompt and sampling temperature. *)
Definition generate_content_request (prompt : string) : request :=
  mk_request "gemini-2.5-flash" prompt "0.0".

(** Attribute access of a [str] method on [response.text]. *)
Definition as_str (text : option string) : result string :=
  match text with
  | Some s => Return s
  | None => Raise (AttributeError "'NoneType' object has no attribute 'strip'")
  end.

(** ** [src/main_1.py]: single-field extraction *)

Definition bl_prompt (full_text : string) : string :=
  String.concat LF
    [ "";
      "    Analyze the text provided below. Your sole objective is to extract the primary ";
      "    Bill of Lading (B/L) number. ";
      "    ";
      "    You MUST ignore container numbers, seal numbers, invoice numbers, or reference IDs.";
      "    The B/L number is typically an alphanumeric string 8 to 12 characters long.";
      "    ";
      "    OUTPUT FORMAT: ONLY the extracted B/L number (e.g., ABC12345678). ";
      "    If you cannot find a clear B/L number, output the exact phrase: BL_Number_Not_Found";
      "    ";
      "    --- DOCUMENT TEXT ---";
      "    " +:+ slice_to full_text 3000;
      "    " ].

(** Longest prefix of [s] made of characters of [cls]. *)
Fixpoint span (cls : string) (s : string) : string :=
  match s with
  | "" => ""
  | String c s' => if char_in c cls then String c (span cls s') else ""
  end.

(** [re.search(r'([A-Z0-9]{8,})', s)], group 1: at the leftmost position
    where eight characters of the class follow each other, the greedy
    repetition takes the whole run. *)
Fixpoint re_search_alnum8 (s : string) : option string :=
  match s with
  | "" => None
  | String _ s' =>
      let m := span (ascii_uppercase +:+ digits) s in
      if (8 <=? String.length m)%nat then Some m else re_search_alnum8 s'
  end.

(** Lines 135-148: cleaning of the answer of the model. *)
Definition clean_bl_response (text : option string) : result string :=
  raw ← as_str text;
  let extracted_bl := upper (strip raw) in
  if String.eqb extracted_bl "BL_NUMBER_NOT_FOUND"
     || String.eqb extracted_bl "BL NUMBER NOT FOUND"
  then Return BL_Number_Not_Found
  else match re_search_alnum8 extracted_bl with
       | Some group1 => Return ("BL-" +:+ group1)
       | None => Return ("BL-" +:+ extracted_bl)
       end.

(** The result of a tool together with the requests it sent to the service. *)
Definition extract_bl_number_llm_tool (pages : list string) (llm : llm_service)
  : result string * list request :=
  let full_text := extract_text pages in
  if negb (truthy (strip full_text)) then (Return BL_Number_Not_Found, [])
  else
    let prompt := bl_prompt full_text in
    let req := generate_content_request prompt in
    (try_except
       (text ← llm req; clean_bl_response text)
       (fun e => Return BL_Number_Not_Found),
     [req]).

(** ** [src/main_2.py]: two-field extraction *)

(** The values [json.loads] can produce. *)
#[warnings="-register-all"]
Inductive pyval : Type :=
  | PyNone
  | PyBool (b : bool)
  | PyInt (n : Z)
  | PyFloat (lexeme : string)
  | PyStr (s : string)
  | PyList (l : list pyval)
  | PyDict (d : gmap string pyval).

Definition dquote : string := String "034"%char "".

Definition details_prompt (full_text : string) : string :=
  String.concat LF
    [ "";
      "    Analyze the text provided below. Extract the primary Bill of Lading (B/L) number ";
      "    and the main Container Number (CN).";
      "    ";
      "    OUTPUT FORMAT: ONLY a valid JSON object with two keys: 'BL_Number' and 'Container_Number'.";
      "    Do NOT include any surrounding text, explanations, or formatting other than the JSON object itself.";
      "    If a number cannot be found, set its value to 'NOT_FOUND'. ";
      "    ";
      "    Example Output: {" +:+ dquote +:+ "BL_Number" +:+ dquote +:+ ": "
        +:+ dquote +:+ "ABC12345678" +:+ dquote +:+ ", "
        +:+ dquote +:+ "Container_Number" +:+ dquote +:+ ": "
        +:+ dquote +:+ "TEMU1234567" +:+ dquote +:+ "}";
      "    ";
      "    --- DOCUMENT TEXT ---";
      "    " +:+ slice_to full_text 3000;
      "    " ].

(** Longest prefix of [s] that ends with a closing brace. *)
Fixpoint upto_last_rbrace (s : string) : option string :=
  match s with
  | "" => None
  | String c s' =>
      match upto_last_rbrace s' with
      | Some m => Some (String c m)
      | None => if Ascii.eqb c "}" then Some (String c "") else None
      end
  end.

(** [re.search(r'\{.*\}', s, re.DOTALL)], group 0: from the leftmost opening
    brace that has a closing brace after it, the greedy [.*] runs to the last
    closing brace. *)
Fixpoint re_search_braces (s : string) : option string :=
  match s with
  | "" => None
  | String c s' =>
      if Ascii.eqb c "{" then
        match upto_last_rbrace s' with
        | Some m => Some (String c m)
        | None => re_search_braces s'
        end
      else re_search_braces s'
  end.

(** [v.strip()] on a value: only a [str] has the method. *)
Definition py_strip (v : pyval) : result string :=
  match v with
  | PyStr s => Return (strip s)
  | _ => Raise (AttributeError "object has no attribute 'strip'")
  end.

(** [details.get(key, default)]: only a [dict] has the method here. *)
Definition py_get (details : pyval) (key : string) (dflt : pyval)
  : result pyval :=
  match details with
  | PyDict d => Return (default dflt (d !! key))
  | _ => Raise (AttributeError "object has no attribute 'get'")
  end.

(** [details[key] = v]. *)
Definition py_setitem (details : pyval) (key : string) (v : pyval)
  : result pyval :=
  match details with
  | PyDict d => Return (PyDict (<[key := v]> d))
  | _ => Raise (AttributeError "object does not support item assignment")
  end.

Section StructuredExtractor.

(** [json.loads]: the parsed value, or the exception it raises. *)
Variable json_loads : string -> result pyval.

(** Lines 175-195: isolation of the JSON object, parsing, normalisation. *)
Definition parse_details_response (text : option string)
  : result (option pyval) :=
  raw ← as_str text;
  let llm_output := strip raw in
  match re_search_braces llm_output with
  | None => Return None
  | Some clean_json_string =>
      details ← json_loads clean_json_string;
      bl ← py_get details "BL_Number" (PyStr "NOT_FOUND");
      bl ← py_strip bl;
      details ← py_setitem details "BL_Number" (PyStr (upper bl));
      cn ← py_get details "Container_Number" (PyStr "NOT_FOUND");
      cn ← py_strip cn;
      details ← py_setitem details "Container_Number" (PyStr (upper cn));
      Return (Some details)
  end.

Definition extract_shipping_details_llm_tool
  (pages : list string) (llm : llm_service)
  : result (option pyval) * list request :=
  let full_text := extract_text pages in
  if negb (truthy (strip full_text)) then (Return None, [])
  else
    let prompt := details_prompt full_text in
    let req := generate_content_request prompt in
    (try_except
       (text ← llm req; parse_details_response text)
       (fun e => Return None),
     [req]).

End StructuredExtractor.

(** ** [src/main_2.py]: the sheet lookup of [main] *)

Definition SPREADSHEET_ID : string :=
  "15A7BklQEKv3a7PGg4kr7QZK6sA8nlDuMfX49XDZwxdo".
Definition SHEET_RANGE : string := "Sheet1!A:E".

(** The calls sent to the spreadsheet service. *)
Inductive sheets_call : Type :=
  | ValuesGet (spreadsheetId range : string)
  | ValuesUpdate (spreadsheetId range valueInputOption : string)
                 (values : list (list string)).

Definition update_sheet_cell (row_index : Z) (bl_number : string)
  (bl_column_letter : string) : sheets_call :=
  let range_name :=
    "Sheet1!" +:+ bl_column_letter +:+ pretty (row_index + 1)%Z in
  let value_input_option := "USER_ENTERED" in
  ValuesUpdate SPREADSHEET_ID range_name value_input_option [[bl_number]].

Definition CONTAINER_COLUMN_INDEX : nat := 3.

(** The loop over [enumerate(sheet_data)] from index [i] on; it ends at the
    first update ([break]). *)
Fixpoint sheet_loop (i : Z) (sheet_data : list (list string))
  (container_number latest_bl_number : string) : list sheets_call :=
  match sheet_data with
  | [] => []
  | row :: sheet_data' =>
      if (0 <? i)%Z
         && (CONTAINER_COLUMN_INDEX <? length row)%nat
         && match row !! CONTAINER_COLUMN_INDEX with
            | Some cell => contains cell container_number
            | None => false
            end
      then [update_sheet_cell i latest_bl_number "E"]
      else sheet_loop (i + 1) sheet_data' container_number latest_bl_number
  end.

(** Step 2 of [main] (lines 243-258); [sheet_data] is what [get_sheet_data]
    returns when it is called. *)
Definition sheet_lookup_and_update (container_number latest_bl_number : string)
  (sheet_data : list (list string)) : list sheets_call :=
  if truthy container_number && negb (contains container_number "NOT_FOUND")
  then ValuesGet SPREADSHEET_ID SHEET_RANGE
         :: sheet_loop 0 sheet_data container_number latest_bl_number
  else [].


(** ** Listing the attachments, and the orchestrators

    The functions that talk to Gmail, Drive and Sheets are modelled over the
    answers of those services: a service is a record of functions that give,
    for the arguments of a call, its result or the exception it raises.  A
    computation carries the list of the calls it made.  Console output is
    not recorded.  [authenticate_google_services] and the construction of
    the service objects are outside the model. *)

(** [s.lower()] and [s.endswith(suffix)]. *)
Definition lower_char (c : ascii) : ascii :=
  if char_in c ascii_uppercase then ascii_of_N (N_of_ascii c + 32) else c.

Fixpoint lower (s : string) : string :=
  match s with
  | "" => ""
  | String c s' => String (lower_char c) (lower s')
  end.

Definition endswith (s suffix : string) : bool :=
  (String.length suffix <=? String.length s)%nat
  && String.eqb (drop (String.length s - String.length suffix) s) suffix.

(** A computation with the trace of what it emitted. *)
Record traced (E A : Type) : Type := Traced {
  outcome : result A;
  trace : list E
}.
Arguments Traced {E A} outcome trace.
Arguments outcome {E A} t.
Arguments trace {E A} t.

Global Instance traced_ret {E} : MRet (traced E) := fun A a => Traced (Return a) [].
Global Instance traced_bind {E} : MBind (traced E) := fun A B k m =>
  match outcome m with
  | Return a => Traced (outcome (k a)) (trace m ++ trace (k a))
  | Raise e => Traced (Raise e) (trace m)
  end.

(** A step that emits [ev] and has the result [answer]. *)
Definition emit {E A : Type} (ev : E) (answer : result A) : traced E A :=
  Traced answer [ev].

(** A step that emits nothing. *)
Definition pure_step {E A : Type} (answer : result A) : traced E A :=
  Traced answer [].

(** [for x in l: s = body x s]. *)
Fixpoint for_each {E A S : Type} (l : list A) (s : S)
  (body : A -> S -> traced E S) : traced E S :=
  match l with
  | [] => mret s
  | x :: l' => s' ← body x s; for_each l' s' body
  end.

(** The calls to the services. *)
Inductive call : Type :=
  | MessagesList (q : string)
  | MessagesGet (id : string)
  | AttachmentsGet (messageId id : string)
  | GenerateContent (req : request)
  | SpreadsheetsValues (c : sheets_call)
  | FilesCreateFolder (name : string)
  | FilesCreateMedia (name parent file_data : string).

Abbreviation run := (traced call).

(** A part of a message: its file name and, in its body, the data or the id
    of the attachment that holds them. *)
Record part : Type := mk_part {
  filename : string;
  body_data : option string;
  body_attachmentId : option string
}.

Record gmail_service : Type := mk_gmail {
  (** [messages().list(userId, q).execute()]: the ids under 'messages', when
      the key is there. *)
  messages_list : string -> result (option (list string));
  (** [messages().get(userId, id).execute()]: the 'parts' of the payload,
      when the key is there. *)
  messages_get : string -> result (option (list part));
  (** [attachments().get(userId, messageId, id).execute()]: its 'data'. *)
  attachments_get : string -> string -> result string
}.

Record drive_service : Type := mk_drive {
  (** [files().create(body, fields='id').execute().get('id')] for a folder. *)
  files_create_folder : string -> result string;
  (** [files().create(body, media_body, fields='id').execute()] for a file
      [name] with the parent [parent]. *)
  files_create_media : string -> string -> string -> result unit
}.

(** What a generator does: the calls it makes and the pairs it yields. *)
Inductive gen_step : Type :=
  | Calls (c : call)
  | Yields (filename file_data : string).

(** [for filename, file_data in generator: s = body filename file_data s]:
    the body runs at each yield; when it raises, the generator is not
    resumed; when the generator raises, the loop raises. *)
Fixpoint for_yielded {S : Type} (steps : list gen_step) (s : S)
  (body : string -> string -> S -> run S) : run S :=
  match steps with
  | [] => mret s
  | Calls c :: steps' => _ ← emit c (Return tt); for_yielded steps' s body
  | Yields filename file_data :: steps' =>
      s' ← body filename file_data s; for_yielded steps' s' body
  end.

Definition for_in {S : Type} (generator : traced gen_step unit) (s : S)
  (body : string -> string -> S -> run S) : run S :=
  s' ← for_yielded (trace generator) s body;
  _ ← pure_step (outcome generator);
  mret s'.

Section Orchestrators.

(** [base64.urlsafe_b64decode]: the bytes, or the exception. *)
Variable urlsafe_b64decode : string -> result string.

(** [PdfReader(io.BytesIO(pdf_data))] and [extract_text()] on each of its
    pages: the texts of the pages, or the exception. *)
Variable PdfReader : string -> result (list string).

(** [json.loads]. *)
Variable json_loads : string -> result pyval.

(** One part of a message (lines 75-87 of [src/main.py]). *)
Definition part_step (gmail : gmail_service) (message_id : string) (p : part)
  : traced gen_step unit :=
  if truthy (filename p) && endswith (lower (filename p)) ".pdf" then
    data ← match body_data p with
           | Some data => mret data
           | None =>
               match body_attachmentId p with
               | Some att_id =>
                   emit (Calls (AttachmentsGet message_id att_id))
                        (attachments_get gmail message_id att_id)
               | None =>
                   pure_step (Raise (OtherException "KeyError" "'attachmentId'"))
               end
           end;
    file_data ← pure_step (urlsafe_b64decode data);
    emit (Yields (filename p) file_data) (Return tt)
  else mret tt.

(** [get_gmail_attachments], the same in the three files but for the query. *)
Definition get_gmail_attachments (query : string) (gmail : gmail_service)
  : traced gen_step unit :=
  results ← emit (Calls (MessagesList query)) (messages_list gmail query);
  let messages := default [] results in
  if bool_decide (messages = []) then mret tt
  else
    for_each messages tt (fun message_id _ =>
      parts ← emit (Calls (MessagesGet message_id)) (messages_get gmail message_id);
      for_each (default [] parts) tt (fun p _ => part_step gmail message_id p)).

Definition create_drive_folder (drive : drive_service) (folder_name : string)
  : run string :=
  emit (FilesCreateFolder folder_name) (files_create_folder drive folder_name).

Definition upload_to_drive (drive : drive_service)
  (folder_id filename file_data : string) : run unit :=
  emit (FilesCreateMedia filename folder_id file_data)
       (files_create_media drive filename folder_id file_data).

(** [f"{latest_bl_number}"]. *)
Definition format_latest (latest_bl_number : option string) : string :=
  default "None" latest_bl_number.

(** Steps 4 and 5 of [main] in [src/main.py] and [src/main_1.py]: nothing
    without files, else one folder and the uploads. *)
Definition create_and_upload (drive : drive_service)
  (latest_bl_number : option string) (all_files_to_upload : list (string * string))
  : run unit :=
  if bool_decide (all_files_to_upload = []) then mret tt
  else
    let folder_name := "Shipment Documents - " +:+ format_latest latest_bl_number in
    folder_id ← create_drive_folder drive folder_name;
    for_each all_files_to_upload tt (fun file_info _ =>
      upload_to_drive drive folder_id (fst file_info) (snd file_info)).

Definition QUERY_TEST_123 : string :=
  "has:attachment filename:pdf subject:" +:+ dquote +:+ "test 123" +:+ dquote.

(** [main] of [src/main.py]. *)
Definition main_pattern (gmail : gmail_service) (drive : drive_service)
  : run unit :=
  st ← for_in (get_gmail_attachments QUERY_TEST_123 gmail) (None, [])
        (fun filename file_data st =>
           pages ← pure_step (PdfReader file_data);
           let current_bl_number := extract_bl_number_from_pdf pages in
           let latest_bl_number :=
             match fst st with
             | None => Some current_bl_number
             | Some l => Some l
             end in
           mret (latest_bl_number, snd st ++ [(filename, file_data)]));
  create_and_upload drive (fst st) (snd st).

(** The single-field tool on the bytes of a PDF, with its requests as calls. *)
Definition bl_number_of_file (llm : llm_service) (file_data : string)
  : run string :=
  pages ← pure_step (PdfReader file_data);
  Traced (fst (extract_bl_number_llm_tool pages llm))
         (GenerateContent <$> snd (extract_bl_number_llm_tool pages llm)).

(** [main] of [src/main_1.py]. *)
Definition main_llm (gmail : gmail_service) (llm : llm_service)
  (drive : drive_service) : run unit :=
  st ← for_in (get_gmail_attachments QUERY_TEST_123 gmail) (None, [])
        (fun filename file_data st =>
           current_bl_number ← bl_number_of_file llm file_data;
           let latest_bl_number :=
             match fst st with
             | None => Some current_bl_number
             | Some l => Some l
             end in
           mret (latest_bl_number, snd st ++ [(filename, file_data)]));
  create_and_upload drive (fst st) (snd st).

End Orchestrators.

(** ** [main] of [src/main_2.py]

    The two fields [main] reads from the details are values of Python; what
    it does with them is defined on a [str], and left to parameters where
    Python's answer on the other values is not modelled. *)

(** [bool(v)], the text of [v] in an f-string and the cell [v] makes in the
    body of a request, with what they are on a [str]. *)
Class PyDynamic : Type := {
  py_bool : pyval -> bool;
  py_format : pyval -> string;
  py_cell : pyval -> string;
  py_bool_str : forall s, py_bool (PyStr s) = truthy s;
  py_format_str : forall s, py_format (PyStr s) = s;
  py_cell_str : forall s, py_cell (PyStr s) = s
}.

(** [details[key]] for a [str] key. *)
Definition py_getitem (details : pyval) (key : string) : result pyval :=
  match details with
  | PyDict d =>
      match d !! key with
      | Some v => Return v
      | None => Raise (OtherException "KeyError" key)
      end
  | _ => Raise (OtherException "TypeError" "indices must be integers or object is not subscriptable")
  end.

(** [sub in v] for a [str] [sub]: a substring of a [str], an element of a
    list, a key of a [dict]. *)
Definition py_contains (v : pyval) (sub : string) : result bool :=
  match v with
  | PyStr s => Return (contains s sub)
  | PyList l =>
      Return (existsb (fun x => match x with
                                | PyStr s => String.eqb s sub
                                | _ => false
                                end) l)
  | PyDict d => Return (bool_decide (is_Some (d !! sub)))
  | _ => Raise (OtherException "TypeError" "argument is not iterable")
  end.

(** [v in cell] for a [str] [cell]. *)
Definition py_in_str (v : pyval) (cell : string) : result bool :=
  match v with
  | PyStr s => Return (contains cell s)
  | _ => Raise (OtherException "TypeError" "'in <string>' requires string as left operand")
  end.

(** The spreadsheet service: [values().get(...).execute().get('values')],
    when the key is there, and [values().update(...).execute()]. *)
Record sheets_service : Type := mk_sheets {
  values_get : sheets_call -> result (option (list (list string)));
  values_update : sheets_call -> result unit
}.

Definition get_sheet_data (sheets : sheets_service) : run (list (list string)) :=
  result ← emit (SpreadsheetsValues (ValuesGet SPREADSHEET_ID SHEET_RANGE))
             (values_get sheets (ValuesGet SPREADSHEET_ID SHEET_RANGE));
  mret (default [] result).

Definition QUERY_TEST_1234 : string :=
  "has:attachment filename:pdf subject:" +:+ dquote +:+ "test 1234" +:+ dquote.

Section OrchestratorDetails.

Variable urlsafe_b64decode : string -> result string.
Variable PdfReader : string -> result (list string).
Variable json_loads : string -> result pyval.
Context {dynamic : PyDynamic}.

(** The loop of lines 249-258 from index [i] on, with the calls sent. *)
Fixpoint sheet_scan (sheets : sheets_service) (i : Z)
  (sheet_data : list (list string)) (container_number latest_bl_number : pyval)
  : run unit :=
  match sheet_data with
  | [] => mret tt
  | row :: sheet_data' =>
      found ← pure_step
                (if (0 <? i)%Z && (CONTAINER_COLUMN_INDEX <? length row)%nat
                 then match row !! CONTAINER_COLUMN_INDEX with
                      | Some cell => py_in_str container_number cell
                      | None => Return false
                      end
                 else Return false);
      if found : bool then
        emit (SpreadsheetsValues
                (update_sheet_cell i (py_cell latest_bl_number) "E"))
             (values_update sheets
                (update_sheet_cell i (py_cell latest_bl_number) "E"))
      else sheet_scan sheets (i + 1) sheet_data' container_number latest_bl_number
  end.

(** The structured tool on the bytes of a PDF, with its requests as calls. *)
Definition details_of_file (llm : llm_service) (file_data : string)
  : run (option pyval) :=
  pages ← pure_step (PdfReader file_data);
  Traced (fst (extract_shipping_details_llm_tool json_loads pages llm))
         (GenerateContent <$> snd (extract_shipping_details_llm_tool json_loads pages llm)).

(** The body of the loop of lines 217-235 on the state
    [(latest_bl_number, container_number, all_files_to_upload)]; [PyNone] is
    Python's [None]. *)
Definition gather_details (llm : llm_service) (filename file_data : string)
  (st : pyval * pyval * list (string * string))
  : run (pyval * pyval * list (string * string)) :=
  details ← details_of_file llm file_data;
  match details with
  | None => mret st
  | Some details =>
      numbers ← match fst (fst st) with
                | PyNone =>
                    bl ← pure_step (py_getitem details "BL_Number");
                    cn ← pure_step (py_getitem details "Container_Number");
                    mret (bl, cn)
                | _ => mret (fst st)
                end;
      mret (numbers, snd st ++ [(filename, file_data)])
  end.

(** Steps 2 and 3 of [main] (lines 237-276) on the state the loop left:
    nothing without files, else the lookup in the sheet, one folder and the
    uploads. *)
Definition lookup_and_upload (sheets : sheets_service) (drive : drive_service)
  (st : pyval * pyval * list (string * string)) : run unit :=
  let latest_bl_number := fst (fst st) in
  let container_number := snd (fst st) in
  let all_files_to_upload := snd st in
  if bool_decide (all_files_to_upload = []) then mret tt
  else
    lookup ← pure_step
               (if py_bool container_number
                then found ← py_contains container_number "NOT_FOUND";
                     Return (negb found)
                else Return false);
    _ ← (if lookup : bool then
           sheet_data ← get_sheet_data sheets;
           sheet_scan sheets 0 sheet_data container_number latest_bl_number
         else mret tt);
    let folder_name := "Shipment Documents - " +:+ py_format latest_bl_number in
    folder_id ← create_drive_folder drive folder_name;
    _ ← pure_step (py_contains latest_bl_number "NOT_FOUND");
    for_each all_files_to_upload tt (fun file_info _ =>
      upload_to_drive drive folder_id (fst file_info) (snd file_info)).

(** [main] of [src/main_2.py]. *)
Definition main_details (gmail : gmail_service) (llm : llm_service)
  (sheets : sheets_service) (drive : drive_service) : run unit :=
  st ← for_in (get_gmail_attachments urlsafe_b64decode QUERY_TEST_1234 gmail)
        (PyNone, PyNone, []) (gather_details llm);
  lookup_and_upload sheets drive st.

End OrchestratorDetails.

(** ** A reader for a fragment of JSON

    Objects, arrays, strings without escapes, integers and the three
    literals.  It instantiates the parameter [json_loads] in the examples; the
    theorems about the extractor hold for every [json_loads]. *)

Module JsonFragment.

Definition is_ws (c : ascii) : bool :=
  char_in c (" " +:+ String "009"%char "" +:+ LF +:+ CR).

Fixpoint skip_ws (s : string) : string :=
  match s with
  | "" => ""
  | String c s' => if is_ws c then skip_ws s' else s
  end.

(** The characters up to the closing quote, and what follows it. *)
Fixpoint read_string (s : string) : option (string * string) :=
  match s with
  | "" => None
  | String c s' =>
      if Ascii.eqb c "034" then Some ("", s')
      else if Ascii.eqb c "\" then None
      else match read_string s' with
           | Some (v, r) => Some (String c v, r)
           | None => None
           end
  end.

Fixpoint read_digits (acc : Z) (s : string) : Z * string :=
  match s with
  | "" => (acc, "")
  | String c s' =>
      match Ascii.is_nat c with
      | Some d => read_digits (10 * acc + Z.of_nat d) s'
      | None => (acc, s)
      end
  end.

Definition read_literal (word : string) (v : pyval) (s : string)
  : option (pyval * string) :=
  if startswith s word then Some (v, drop (String.length word) s) else None.

Fixpoint read_value (fuel : nat) (s : string) : option (pyval * string) :=
  match fuel with
  | O => None
  | S fuel' =>
      match skip_ws s with
      | "" => None
      | String c r =>
          if Ascii.eqb c "{" then
            match skip_ws r with
            | String "}" r' => Some (PyDict ∅, r')
            | _ => read_members fuel' ∅ r
            end
          else if Ascii.eqb c "[" then
            match skip_ws r with
            | String "]" r' => Some (PyList [], r')
            | _ => read_elements fuel' [] r
            end
          else if Ascii.eqb c "034" then
            match read_string r with
            | Some (v, r') => Some (PyStr v, r')
            | None => None
            end
          else if Ascii.eqb c "-" then
            match r with
            | String d _ =>
                if char_in d digits
                then let '(n, r') := read_digits 0 r in Some (PyInt (- n), r')
                else None
            | "" => None
            end
          else if char_in c digits then
            let '(n, r') := read_digits 0 (String c r) in Some (PyInt n, r')
          else if Ascii.eqb c "t" then read_literal "true" (PyBool true) (String c r)
          else if Ascii.eqb c "f" then read_literal "false" (PyBool false) (String c r)
          else if Ascii.eqb c "n" then read_literal "null" PyNone (String c r)
          else None
      end
  end
with read_members (fuel : nat) (d : gmap string pyval) (s : string)
  : option (pyval * string) :=
  match fuel with
  | O => None
  | S fuel' =>
      match skip_ws s with
      | String "034" r =>
          match read_string r with
          | Some (key, r1) =>
              match skip_ws r1 with
              | String ":" r2 =>
                  match read_value fuel' r2 with
                  | Some (v, r3) =>
                      match skip_ws r3 with
                      | String "," r4 => read_members fuel' (<[key := v]> d) r4
                      | String "}" r4 => Some (PyDict (<[key := v]> d), r4)
                      | _ => None
                      end
                  | None => None
                  end
              | _ => None
              end
          | None => None
          end
      | _ => None
      end
  end
with read_elements (fuel : nat) (acc : list pyval) (s : string)
  : option (pyval * string) :=
  match fuel with
  | O => None
  | S fuel' =>
      match read_value fuel' s with
      | Some (v, r) =>
          match skip_ws r with
          | String "," r' => read_elements fuel' (acc ++ [v]) r'
          | String "]" r' => Some (PyList (acc ++ [v]), r')
          | _ => None
          end
      | None => None
      end
  end.

Definition loads (s : string) : result pyval :=
  match read_value (S (String.length s)) s with
  | Some (v, r) =>
      if truthy (skip_ws r) then Raise (JSONDecodeError "Extra data")
      else Return v
  | None => Raise (JSONDecodeError "Expecting value")
  end.

End JsonFragment.

(** ** Definitions used to state the properties *)

(** Every character of [s] satisfies [p]. *)
Fixpoint str_all (p : ascii -> bool) (s : string) : bool :=
  match s with
  | "" => true
  | String c s' => p c && str_all p s'
  end.

(** A letter or digit, as [_get_alphanumeric_block] reads it. *)
Definition alnum (c : ascii) : bool := char_in c valid_chars.

(** A character of the class [[A-Z0-9]]. *)
Definition upper_alnum (c : ascii) : bool :=
  char_in c (ascii_uppercase +:+ digits).

(** [s] is empty or begins with a character outside [p]. *)
Definition ends_run (p : ascii -> bool) (s : string) : Prop :=
  match s with
  | "" => True
  | String c _ => p c = false
  end.

(** The normalisation of one page as the specification words it: line feeds
    and carriage returns become spaces, then one pass from the left replaces
    each pair of spaces it meets by one space. *)
Definition newline_to_space (c : ascii) : ascii :=
  if Ascii.eqb c "010" || Ascii.eqb c "013" then " "%char else c.

Fixpoint map_chars (f : ascii -> ascii) (s : string) : string :=
  match s with
  | "" => ""
  | String c s' => String (f c) (map_chars f s')
  end.

Fixpoint collapse_pairs (s : string) : string :=
  match s with
  | "" => ""
  | String c s' =>
      match s' with
      | String d s'' =>
          if Ascii.eqb c " " && Ascii.eqb d " "
          then String " " (collapse_pairs s'')
          else String c (collapse_pairs s')
      | "" => String c ""
      end
  end.

(** A run of [n] characters of [p] begins at offset [i] of [s]. *)
Definition run_at (p : ascii -> bool) (n : nat) (s : string) (i : nat) : bool :=
  let w := take n (drop i s) in (String.length w =? n)%nat && str_all p w.

(** The cleaning of the model's answer as the specification words it, on the
    trimmed, upper-cased answer [c]: the sentinel phrase gives the sentinel;
    otherwise the first run of eight or more characters of [[A-Z0-9]] is
    prefixed; otherwise the whole of [c] is. *)
Inductive cleaned_bl (c : string) : string -> Prop :=
  | cleaned_sentinel :
      c = "BL_NUMBER_NOT_FOUND" \/ c = "BL NUMBER NOT FOUND" ->
      cleaned_bl c "BL_Number_Not_Found"
  | cleaned_first_run pre run rest :
      c <> "BL_NUMBER_NOT_FOUND" -> c <> "BL NUMBER NOT FOUND" ->
      c = pre +:+ run +:+ rest ->
      (forall i, i < String.length pre -> run_at upper_alnum 8 c i = false) ->
      str_all upper_alnum run = true ->
      8 <= String.length run ->
      ends_run upper_alnum rest ->
      cleaned_bl c ("BL-" +:+ run)
  | cleaned_whole :
      c <> "BL_NUMBER_NOT_FOUND" -> c <> "BL NUMBER NOT FOUND" ->
      (forall i, run_at upper_alnum 8 c i = false) ->
      cleaned_bl c ("BL-" +:+ c).

(** The shape the data model gives an identifier: a sentinel, or "BL-" and a
    payload of at least one character, all of [[A-Z0-9]]. *)
Definition is_identifier (s : string) : bool :=
  String.eqb s "BL_Number_Not_Found"
  || String.eqb s "NOT_FOUND"
  || (startswith s "BL-"
      && (1 <=? String.length (drop 3 s))%nat
      && str_all upper_alnum (drop 3 s)).

(** The value is a [str]. *)
Definition is_str (v : pyval) : bool :=
  match v with PyStr _ => true | _ => false end.

(** No lower-case letter occurs in [s]. *)
Definition is_upper (s : string) : bool :=
  str_all (fun c => negb (char_in c ascii_lowercase)) s.

(** The row has a cell at the container column and the cell contains the
    container number. *)
Definition row_matches (container_number : string) (row : list string) : Prop :=
  exists cell,
    row !! CONTAINER_COLUMN_INDEX = Some cell
    /\ contains cell container_number = true.

(** Example answers are written with an apostrophe where JSON has a double
    quote. *)
Definition json_text (s : string) : string := replace s "'" dquote.

(** The pairs a generator yielded, and the calls it made, in order. *)
Definition yielded (steps : list gen_step) : list (string * string) :=
  omap (fun st => match st with
                  | Yields filename file_data => Some (filename, file_data)
                  | Calls _ => None
                  end) steps.

Definition calls_of (steps : list gen_step) : list call :=
  omap (fun st => match st with
                  | Calls c => Some c
                  | Yields _ _ => None
                  end) steps.

(** The calls to Drive and the requests to the model among some calls. *)
Definition drive_calls (cs : list call) : list call :=
  omap (fun c => match c with
                 | FilesCreateFolder _ | FilesCreateMedia _ _ _ => Some c
                 | _ => None
                 end) cs.

Definition model_requests (cs : list call) : list request :=
  omap (fun c => match c with
                 | GenerateContent req => Some req
                 | _ => None
                 end) cs.

(** A file name that passes the test of [get_gmail_attachments]. *)
Definition pdf_name (filename : string) : bool :=
  truthy filename && endswith (lower filename) ".pdf".

(** A step a listing of attachments may take: a call to Gmail, or the yield
    of a file with a PDF name. *)
Definition listing_step (st : gen_step) : Prop :=
  match st with
  | Calls (MessagesList _) | Calls (MessagesGet _) | Calls (AttachmentsGet _ _) =>
      True
  | Calls _ => False
  | Yields filename _ => pdf_name filename = true
  end.

(** The upload call for a gathered file, and the folder name for a number. *)
Definition upload_call (folder_id : string) (file : string * string) : call :=
  FilesCreateMedia (fst file) folder_id (snd file).

Definition folder_name_for (bl_number : string) : string :=
  "Shipment Documents - " +:+ bl_number.

(** The string a tool returned, the sentinel standing for an exception (the
    single-field tool never raises). *)
Definition returned_string (r : result string) : string :=
  match r with
  | Return s => s
  | Raise _ => BL_Number_Not_Found
  end.

(** The calls to the spreadsheet among some calls. *)
Definition sheet_calls (cs : list call) : list sheets_call :=
  omap (fun c => match c with
                 | SpreadsheetsValues c => Some c
                 | _ => None
                 end) cs.

(** A tool returned details, not [None]. *)
Definition has_details (r : result (option pyval)) : bool :=
  match r with
  | Return (Some _) => true
  | _ => false
  end.

(** A call of the gathering stage: to Gmail or to the model. *)
Definition gathering_call (c : call) : Prop :=
  match c with
  | MessagesList _ | MessagesGet _ | AttachmentsGet _ _ | GenerateContent _ => True
  | _ => False
  end.

(** ** An inbox, a reader and a Drive for the examples *)

(** One message with an inline PDF, a text file and a PDF held as an
    attachment. *)
Definition inbox_one_message : gmail_service :=
  mk_gmail (fun _ => Return (Some ["m1"]))
    (fun _ => Return (Some [mk_part "BL.pdf" (Some "B/L: MEDU1234567 shipper") None;
                            mk_part "note.txt" (Some "hello") None;
                            mk_part "Invoice.PDF" None (Some "att-2")]))
    (fun _ _ => Return "Invoice 42").

(** The bytes of a file read as its one page. *)
Definition one_page_reader : string -> result (list string) :=
  fun file_data => Return [file_data].

Definition unreadable : string -> result (list string) :=
  fun _ => Raise (OtherException "PdfReadError" "EOF marker not found").

Definition accepting_drive : drive_service :=
  mk_drive (fun _ => Return "folder-1") (fun _ _ _ => Return tt).

Definition service_down : llm_service :=
  fun _ => Raise (OtherException "ServerError" "503 UNAVAILABLE").

(** A model that answers with a preamble and fields in lower case. *)
Definition answering_service : llm_service :=
  fun _ => Return (Some ("Here you are: {"
                         +:+ json_text "'BL_Number': ' medu1234567 ', 'Container_Number': 'temu7654321'"
                         +:+ "}")).

(** A model that answers for the bill of lading and fails on other texts. *)
Definition selective_service : llm_service :=
  fun req => if contains (contents req) "MEDU1234567"
             then answering_service req
             else Raise (OtherException "ServerError" "503 UNAVAILABLE").

(** A spreadsheet with a header and a row for the container, and one that is
    out of reach. *)
Definition sheet_with_container : sheets_service :=
  mk_sheets (fun _ => Return (Some [["No"; "Date"; "Port"; "Container"; "BL"];
                                    ["1"; "2024-01-05"; "Mundra"; "TEMU7654321"; ""]]))
            (fun _ => Return tt).

Definition sheet_out_of_reach : sheets_service :=
  mk_sheets (fun _ => Raise (OtherException "HttpError" "403"))
            (fun _ => Return tt).

(** Python on strings; the other values do not occur in the examples. *)
Definition on_strings : PyDynamic :=
  {| py_bool v := match v with PyStr s => truthy s | _ => false end;
     py_format v := match v with PyStr s => s | _ => "" end;
     py_cell v := match v with PyStr s => s | _ => "" end;
     py_bool_str _ := eq_refl;
     py_format_str _ := eq_refl;
     py_cell_str _ := eq_refl |}.

(** * Properties *)

(** ** Strings *)

Lemma str_app_cons c s t : String c s +:+ t = String c (s +:+ t).
Proof. reflexivity. Qed.

Lemma str_app_empty_l t : "" +:+ t = t.
Proof. reflexivity. Qed.

Lemma str_app_empty_r s : s +:+ "" = s.
Proof. induction s as [|c s IH]; [done|]. by rewrite str_app_cons, IH. Qed.

Lemma str_app_assoc s t u : (s +:+ t) +:+ u = s +:+ (t +:+ u).
Proof.
  induction s as [|c s IH]; [done|]. by rewrite !str_app_cons, IH.
Qed.

Lemma str_length_app s t :
  String.length (s +:+ t) = String.length s + String.length t.
Proof.
  induction s as [|c s IH]; [done|]. rewrite str_app_cons. simpl. by rewrite IH.
Qed.

Ltac str_norm := rewrite ?str_app_cons, ?str_app_empty_l.

Lemma startswith_empty s : startswith s "" = true.
Proof. by destruct s. Qed.


Lemma contains_cons c s sub : contains s sub = true -> contains (String c s) sub = true.
Proof. intros H. cbn [contains]. rewrite H. apply orb_true_r. Qed.


Lemma map_chars_app f s t : map_chars f (s +:+ t) = map_chars f s +:+ map_chars f t.
Proof.
  induction s as [|c s IH]; [done|].
  rewrite str_app_cons. simpl. by rewrite IH, str_app_cons.
Qed.

Lemma map_chars_compose f g s : map_chars g (map_chars f s) = map_chars (fun c => g (f c)) s.
Proof. induction s as [|c s IH]; [done|]. simpl. by rewrite IH. Qed.

Lemma map_chars_ext f g s : (forall c, f c = g c) -> map_chars f s = map_chars g s.
Proof. intros E. induction s as [|c s IH]; [done|]. simpl. by rewrite IH, E. Qed.

(** ** Text extraction *)

(** Replacing a one-character string by another acts character by character. *)
Lemma replace_char a b s :
  replace s (String a "") (String b "")
  = map_chars (fun c => if Ascii.eqb a c then b else c) s.
Proof.
  unfold replace. induction s as [|c s IH]; [done|].
  simpl. rewrite startswith_empty, andb_true_r.
  destruct (Ascii.eqb a c); simpl; by rewrite IH.
Qed.

(** Replacing a pair of spaces by one space is the single pass of
    [collapse_pairs]. *)
Lemma replace_pairs_step s :
  replace_from 0 s "  " " " = collapse_pairs s
  /\ forall c, replace_from 0 (String c s) "  " " " = collapse_pairs (String c s).
Proof.
  induction s as [|d s [IH1 IH2]].
  - split; [done|]. intros c. simpl. by rewrite andb_false_r.
  - split; [apply IH2|]. intros c.
    change (replace_from 0 (String c (String d s)) "  " " ")
      with (if Ascii.eqb " " c && (Ascii.eqb " " d && startswith s "")
            then " " +:+ replace_from 0 s "  " " "
            else String c (replace_from 0 (String d s) "  " " ")).
    change (collapse_pairs (String c (String d s)))
      with (if Ascii.eqb c " " && Ascii.eqb d " "
            then String " " (collapse_pairs s)
            else String c (collapse_pairs (String d s))).
    rewrite startswith_empty, andb_true_r.
    rewrite (Ascii.eqb_sym " " c), (Ascii.eqb_sym " " d).
    destruct (Ascii.eqb c " " && Ascii.eqb d " ").
    + by rewrite IH1.
    + by rewrite IH2.
Qed.

Lemma replace_pairs s : replace s "  " " " = collapse_pairs s.
Proof. apply replace_pairs_step. Qed.

Lemma normalize_page_spec page :
  normalize_page page = collapse_pairs (map_chars newline_to_space page).
Proof.
  unfold normalize_page, LF, CR.
  change " " with (String " "%char "") at 1 2.
  rewrite !replace_char, replace_pairs, map_chars_compose.
  f_equal. apply map_chars_ext. intros c. unfold newline_to_space.
  rewrite (Ascii.eqb_sym c "010"), (Ascii.eqb_sym c "013").
  destruct (Ascii.eqb "010" c) eqn:E; [done|]. simpl. done.
Qed.

Lemma extract_text_from acc pages :
  fold_left (fun full_text page => full_text +:+ normalize_page page) pages acc
  = acc +:+ foldr (fun page rest => normalize_page page +:+ rest) "" pages.
Proof.
  revert acc. induction pages as [|p pages IH]; intros acc; simpl.
  - by rewrite str_app_empty_r.
  - by rewrite IH, str_app_assoc.
Qed.

(** A run of four spaces, wherever the pass meets it, leaves two adjacent
    spaces behind. *)
Lemma collapse_pairs_four_step a :
  (forall b, contains (collapse_pairs (a +:+ "    " +:+ b)) "  " = true)
  /\ forall c b, contains (collapse_pairs (String c a +:+ "    " +:+ b)) "  " = true.
Proof.
  induction a as [|d a [IH1 IH2]].
  - assert (H0 : forall b, contains (collapse_pairs ("" +:+ "    " +:+ b)) "  " = true).
    { intros b. str_norm. simpl. by rewrite startswith_empty. }
    split; [exact H0|]. intros c b.
    specialize (H0 b). revert H0. str_norm. intros H0.
    destruct (Ascii.eqb c " ") eqn:E.
    + apply Ascii.eqb_eq in E as ->. simpl. by rewrite startswith_empty.
    + change (collapse_pairs (String c (String " " (String " " (String " " (String " " b))))))
        with (if Ascii.eqb c " " && true
              then String " " (collapse_pairs (String " " (String " " (String " " b))))
              else String c (collapse_pairs (String " " (String " " (String " " (String " " b)))))).
      rewrite E. simpl andb. cbv iota. apply contains_cons, H0.
  - split; [apply IH2|]. intros c b.
    specialize (IH1 b). specialize (IH2 d b). revert IH1 IH2.
    set (t := "    " +:+ b). intros IH1 IH2.
    rewrite !str_app_cons.
    change (collapse_pairs (String c (String d (a +:+ t))))
      with (if Ascii.eqb c " " && Ascii.eqb d " "
            then String " " (collapse_pairs (a +:+ t))
            else String c (collapse_pairs (String d (a +:+ t)))).
    destruct (Ascii.eqb c " " && Ascii.eqb d " ").
    + apply contains_cons, IH1.
    + apply contains_cons. rewrite <- str_app_cons. apply IH2.
Qed.

(** C9. Text Extractor normalisation: the text of a document is the
    concatenation over its pages of each page's text in which every line feed
    and carriage return has become a space and then one pass has replaced
    each non-overlapping pair of spaces by one space; the pass is not
    repeated, so four spaces become two, and a page holding four spaces in a
    row still has two adjacent spaces after normalisation. *)
Theorem text_extractor_normalization (pages : list string) :
  extract_text pages
  = foldr (fun page rest =>
             collapse_pairs (map_chars newline_to_space page) +:+ rest) "" pages
  /\ normalize_page "    " = "  "
  /\ forall a b, contains (normalize_page (a +:+ "    " +:+ b)) "  " = true.
Proof.
  split; [|split].
  - unfold extract_text. rewrite extract_text_from, str_app_empty_l.
    induction pages as [|p pages IH]; [done|].
    simpl. by rewrite IH, normalize_page_spec.
  - reflexivity.
  - intros a b. rewrite normalize_page_spec, !map_chars_app.
    apply collapse_pairs_four_step.
Qed.

(** ** Case conversion, slices and searches *)

Ltac ascii_cases c := destruct c as [[] [] [] [] [] [] [] []].




Lemma upper_char_space c : isspace c = true -> upper_char c = c.
Proof. ascii_cases c; intros H; try done; by vm_compute in H. Qed.

Lemma isspace_upper_char c : isspace (upper_char c) = isspace c.
Proof. ascii_cases c; reflexivity. Qed.

Lemma upper_char_idem c : upper_char (upper_char c) = upper_char c.
Proof. ascii_cases c; reflexivity. Qed.

Lemma upper_idem s : upper (upper s) = upper s.
Proof. induction s as [|c s IH]; [done|]. simpl. by rewrite IH, upper_char_idem. Qed.

Lemma upper_char_alnum c : alnum c = true -> upper_alnum (upper_char c) = true.
Proof. ascii_cases c; intros H; try done; by vm_compute in H. Qed.

Lemma upper_char_no_lower c : char_in (upper_char c) ascii_lowercase = false.
Proof. ascii_cases c; reflexivity. Qed.

Lemma drop_app_length s t : drop (String.length s) (s +:+ t) = t.
Proof. induction s as [|c s IH]; [done|]. rewrite str_app_cons. simpl. exact IH. Qed.

Lemma drop_empty n : drop n "" = "".
Proof. by destruct n. Qed.






Lemma contains_head s c k : contains s (String c k) = true -> char_in c s = true.
Proof.
  induction s as [|d s IH]; [done|].
  cbn [contains startswith char_in]. intros H.
  destruct (Ascii.eqb c d); [done|]. simpl in *. auto.
Qed.

Lemma char_in_upper_space s c :
  str_all isspace s = true -> char_in c (upper s) = true -> isspace c = true.
Proof.
  induction s as [|d s IH]; [done|]. simpl.
  intros [Hd Hs]%andb_true_iff [E|H]%orb_true_iff; [|auto].
  apply Ascii.eqb_eq in E as ->. by rewrite isspace_upper_char.
Qed.

(** ** Whitespace *)

Lemma lstrip_blank s : lstrip s = "" -> str_all isspace s = true.
Proof.
  induction s as [|c s IH]; [done|]. simpl.
  destruct (isspace c); [auto|done].
Qed.

Lemma rstrip_blank s : rstrip s = "" -> str_all isspace s = true.
Proof.
  induction s as [|c s IH]; [done|]. simpl.
  destruct (rstrip s); [|done]. destruct (isspace c); [auto|done].
Qed.

Lemma lstrip_head s : lstrip s = "" \/ exists c r, lstrip s = String c r /\ isspace c = false.
Proof.
  induction s as [|c s IH]; [by left|]. simpl.
  destruct (isspace c) eqn:E; [exact IH|]. right. by exists c, s.
Qed.

Lemma strip_blank s : strip s = "" -> str_all isspace s = true.
Proof.
  unfold strip. intros H. apply lstrip_blank.
  destruct (lstrip_head s) as [E|(c & r & E & Hc)]; [done|].
  rewrite E in H. apply rstrip_blank in H. simpl in H. by rewrite Hc in H.
Qed.

Lemma not_truthy s : truthy s = false -> s = "".
Proof. by destruct s. Qed.

(** ** The keyword search *)

Lemma block_loop_skip skipped s :
  str_all (fun c => negb (alnum c)) skipped = true ->
  block_loop "" (skipped +:+ s) = block_loop "" s.
Proof.
  induction skipped as [|c sk IH]; [done|].
  rewrite str_app_cons. cbn [block_loop str_all truthy]. unfold alnum.
  intros [Hc Hsk]%andb_true_iff. apply negb_true_iff in Hc. rewrite Hc. auto.
Qed.






Lemma keyword_loop_miss full_text full_text_upper kws :
  Forall (fun k =>
            contains full_text_upper (upper k) = false
            \/ _get_alphanumeric_block full_text
                 (find full_text_upper (upper k) + len (upper k)) = "") kws ->
  keyword_loop full_text full_text_upper kws = BL_Number_Not_Found.
Proof.
  induction 1 as [|k kws Hk _ IH]; [done|].
  cbn [keyword_loop]. cbv zeta. destruct Hk as [Hk|Hk].
  - by rewrite Hk.
  - rewrite Hk. cbn [upper truthy]. by destruct (contains _ _).
Qed.


(** Every keyword begins with a character that is not white space. *)
Lemma keywords_head :
  Forall (fun k => exists c r, upper k = String c r /\ isspace c = false) keywords.
Proof. repeat constructor; by eexists _, _. Qed.

Lemma blank_text_no_keyword text :
  str_all isspace text = true ->
  Forall (fun k => contains (upper text) (upper k) = false) keywords.
Proof.
  intros Hblank. eapply Forall_impl; [apply keywords_head|].
  intros k (c & r & -> & Hc). simpl in *.
  destruct (contains (upper text) (String c r)) eqn:E; [|done].
  apply contains_head, (char_in_upper_space _ _ Hblank) in E. congruence.
Qed.




Lemma finder_no_keyword pages :
  Forall (fun k => contains (upper (extract_text pages)) (upper k) = false)
         keywords ->
  extract_bl_number_from_pdf pages = BL_Number_Not_Found.
Proof.
  intros H. apply keyword_loop_miss. eapply Forall_impl; [exact H|]. auto.
Qed.




(** ** The answer of the model, single-field variant *)




Lemma lstrip_all_space s : str_all isspace s = true -> lstrip s = "".
Proof.
  induction s as [|c s IH]; [done|]. simpl.
  intros [Hc Hs]%andb_true_iff. rewrite Hc. auto.
Qed.

Lemma strip_all_space s : str_all isspace s = true -> strip s = "".
Proof. intros H. unfold strip. by rewrite lstrip_all_space. Qed.

Lemma span_split cls s :
  exists rest,
    s = span cls s +:+ rest
    /\ str_all (fun c => char_in c cls) (span cls s) = true
    /\ ends_run (fun c => char_in c cls) rest.
Proof.
  induction s as [|c s (rest & E & Hall & Hend)].
  - by exists "".
  - cbn [span]. destruct (char_in c cls) eqn:Hc.
    + exists rest. rewrite str_app_cons, <- E. cbn [str_all]. by rewrite Hc.
    + by exists (String c s).
Qed.

Lemma run_at_tail p n c s i : run_at p n (String c s) (S i) = run_at p n s i.
Proof. reflexivity. Qed.

Lemma run_at_span cls n s :
  run_at (fun c => char_in c cls) n s 0 = true -> n <= String.length (span cls s).
Proof.
  unfold run_at. cbn [drop]. revert s. induction n as [|n IH]; intros s; [lia|].
  destruct s as [|c s]; [done|]. cbn [take str_all span String.length].
  intros [Hlen [Hc Hall]%andb_true_iff]%andb_true_iff. rewrite Hc.
  cbn [String.length]. apply le_n_S, IH.
  apply andb_true_iff. split; [exact Hlen|exact Hall].
Qed.

Lemma re_search_alnum8_unfold c s :
  re_search_alnum8 (String c s)
  = if (8 <=? String.length (span (ascii_uppercase +:+ digits) (String c s)))%nat
    then Some (span (ascii_uppercase +:+ digits) (String c s))
    else re_search_alnum8 s.
Proof. reflexivity. Qed.

(** A match of the pattern is the leftmost run of eight or more characters
    of the class, taken whole. *)
Lemma re_search_alnum8_some s m :
  re_search_alnum8 s = Some m ->
  exists pre rest,
    s = pre +:+ m +:+ rest
    /\ (forall i, i < String.length pre -> run_at upper_alnum 8 s i = false)
    /\ str_all upper_alnum m = true
    /\ 8 <= String.length m
    /\ ends_run upper_alnum rest.
Proof.
  induction s as [|c s IH]; [done|].
  rewrite re_search_alnum8_unfold.
  destruct (Nat.leb_spec 8 (String.length (span (ascii_uppercase +:+ digits) (String c s))))
    as [Hlen|Hlen].
  - intros [= <-].
    destruct (span_split (ascii_uppercase +:+ digits) (String c s))
      as (rest & E & Hall & Hend).
    exists "", rest. rewrite str_app_empty_l. repeat split; try done.
    intros i Hi. simpl in Hi. lia.
  - intros (pre & rest & E & Hfirst & Hall & Hm & Hend)%IH.
    exists (String c pre), rest. rewrite str_app_cons, <- E.
    repeat split; try done.
    intros [|i] Hi.
    + destruct (run_at upper_alnum 8 (String c s) 0) eqn:Hrun; [|done].
      apply run_at_span in Hrun. lia.
    + rewrite run_at_tail. apply Hfirst. simpl in Hi. lia.
Qed.

(** No match: no run of eight characters of the class anywhere. *)
Lemma re_search_alnum8_none s :
  re_search_alnum8 s = None -> forall i, run_at upper_alnum 8 s i = false.
Proof.
  induction s as [|c s IH].
  - intros _ i. unfold run_at. by rewrite drop_empty.
  - rewrite re_search_alnum8_unfold.
    destruct (Nat.leb_spec 8 (String.length (span (ascii_uppercase +:+ digits) (String c s))))
      as [Hlen|Hlen]; [done|].
    intros H [|i].
    + destruct (run_at upper_alnum 8 (String c s) 0) eqn:Hrun; [|done].
      apply run_at_span in Hrun. lia.
    + rewrite run_at_tail. by apply IH.
Qed.

Lemma clean_bl_response_spec raw :
  exists out,
    clean_bl_response (Some raw) = Return out
    /\ cleaned_bl (upper (strip raw)) out.
Proof.
  unfold clean_bl_response. cbn [as_str mbind result_bind].
  destruct (String.eqb_spec (upper (strip raw)) "BL_NUMBER_NOT_FOUND") as [E1|N1].
  { eexists. split; [done|]. constructor. by left. }
  destruct (String.eqb_spec (upper (strip raw)) "BL NUMBER NOT FOUND") as [E2|N2].
  { eexists. split; [done|]. constructor. by right. }
  cbn [orb].
  destruct (re_search_alnum8 (upper (strip raw))) as [m|] eqn:Hm.
  - apply re_search_alnum8_some in Hm as (pre & rest & E & Hfirst & Hall & Hlen & Hend).
    eexists. split; [done|]. by eapply cleaned_first_run.
  - eexists. split; [done|]. apply cleaned_whole; try done.
    by apply re_search_alnum8_none.
Qed.

Lemma take_app_le n s t :
  n <= String.length s -> take n (s +:+ t) = take n s.
Proof.
  revert s. induction n as [|n IH]; intros s Hn; [done|].
  destruct s as [|c s]; [simpl in Hn; lia|].
  rewrite str_app_cons. cbn [take]. rewrite IH; [done|]. simpl in Hn. lia.
Qed.

Lemma take_length n s : n <= String.length s -> String.length (take n s) = n.
Proof.
  revert s. induction n as [|n IH]; intros s Hn; [done|].
  destruct s as [|c s]; [simpl in Hn; lia|].
  cbn [take String.length]. rewrite IH; [done|]. simpl in Hn. lia.
Qed.

Lemma str_all_take p n s : str_all p s = true -> str_all p (take n s) = true.
Proof.
  revert s. induction n as [|n IH]; intros s; [done|].
  destruct s as [|c s]; [done|]. cbn [take str_all].
  intros [Hc Hs]%andb_true_iff. by rewrite Hc, IH.
Qed.

Lemma run_at_here p n pre run rest :
  str_all p run = true -> n <= String.length run ->
  run_at p n (pre +:+ run +:+ rest) (String.length pre) = true.
Proof.
  intros Hall Hn. unfold run_at.
  rewrite drop_app_length, take_app_le, take_length by done.
  by rewrite Nat.eqb_refl, str_all_take.
Qed.

Lemma str_app_inj_length s1 s2 t1 t2 :
  s1 +:+ t1 = s2 +:+ t2 -> String.length s1 = String.length s2 ->
  s1 = s2 /\ t1 = t2.
Proof.
  revert s2. induction s1 as [|c s1 IH]; intros [|d s2]; try done.
  rewrite !str_app_cons. intros [= -> E] [= Hlen].
  by destruct (IH _ E Hlen) as [-> ->].
Qed.

Lemma maximal_run_unique p run1 rest1 run2 rest2 :
  run1 +:+ rest1 = run2 +:+ rest2 ->
  str_all p run1 = true -> ends_run p rest1 ->
  str_all p run2 = true -> ends_run p rest2 ->
  run1 = run2.
Proof.
  revert run2. induction run1 as [|c run1 IH]; intros [|d run2].
  - done.
  - rewrite str_app_empty_l, str_app_cons. intros -> _ Hend [Hd _]%andb_true_iff _.
    simpl in Hend. congruence.
  - rewrite str_app_empty_l, str_app_cons. intros <- [Hc _]%andb_true_iff _ _ Hend.
    simpl in Hend. congruence.
  - rewrite !str_app_cons. intros [= -> E] [_ H1]%andb_true_iff Hend1
      [_ H2]%andb_true_iff Hend2.
    f_equal. by apply IH.
Qed.

(** The three cases of [cleaned_bl] exclude each other and the first run is
    unique: the relation fixes the result. *)
Lemma cleaned_bl_functional c out1 out2 :
  cleaned_bl c out1 -> cleaned_bl c out2 -> out1 = out2.
Proof.
  intros [Hs1|pre1 run1 rest1 N1 N1' E1 Hfirst1 Hall1 Hlen1 Hend1|N1 N1' Hnone1]
         [Hs2|pre2 run2 rest2 N2 N2' E2 Hfirst2 Hall2 Hlen2 Hend2|N2 N2' Hnone2];
    try done; try (by destruct Hs1); try (by destruct Hs2).
  - assert (Hpre : String.length pre1 = String.length pre2).
    { destruct (Nat.lt_trichotomy (String.length pre1) (String.length pre2))
        as [Hlt|[Heq|Hgt]]; [|done|].
      - apply Hfirst2 in Hlt. rewrite E1 in Hlt at 1.
        by rewrite run_at_here in Hlt.
      - apply Hfirst1 in Hgt. rewrite E2 in Hgt at 1.
        by rewrite run_at_here in Hgt. }
    rewrite E1 in E2. apply str_app_inj_length in E2 as [_ E2]; [|done].
    f_equal. by eapply maximal_run_unique.
  - specialize (Hnone2 (String.length pre1)). rewrite E1 in Hnone2 at 1.
    by rewrite run_at_here in Hnone2.
  - specialize (Hnone1 (String.length pre2)). rewrite E2 in Hnone1 at 1.
    by rewrite run_at_here in Hnone1.
Qed.




(** ** Failures of the model call *)

Lemma try_except_total {A : Type} (body : result A) (fallback : A) :
  exists out, try_except body (fun _ => Return fallback) = Return out.
Proof. destruct body; by eexists. Qed.

Lemma bl_tool_returns pages llm :
  exists out, fst (extract_bl_number_llm_tool pages llm) = Return out.
Proof.
  unfold extract_bl_number_llm_tool.
  destruct (negb (truthy (strip (extract_text pages)))); cbn [fst].
  - by eexists.
  - apply try_except_total.
Qed.


Section StructuredExtractorFailures.

Variable json_loads : string -> result pyval.

Lemma details_tool_returns pages llm :
  exists out,
    fst (extract_shipping_details_llm_tool json_loads pages llm) = Return out.
Proof.
  unfold extract_shipping_details_llm_tool.
  destruct (negb (truthy (strip (extract_text pages)))); cbn [fst].
  - by eexists.
  - apply try_except_total.
Qed.



End StructuredExtractorFailures.


(** ** Blank text *)

Section BlankText.

Variable json_loads : string -> result pyval.

(** C7. Blank-text short-circuit: when the text extracted from a document is
    empty or made of white space only, the finder returns
    "BL_Number_Not_Found", the single-field extractor returns
    "BL_Number_Not_Found" and the structured extractor returns the absence
    signal, whatever the model service is, and no request is sent to it. *)
Theorem blank_text_short_circuit (pages : list string) :
  str_all isspace (extract_text pages) = true ->
  extract_bl_number_from_pdf pages = BL_Number_Not_Found
  /\ (forall llm,
        extract_bl_number_llm_tool pages llm = (Return BL_Number_Not_Found, []))
  /\ (forall llm,
        extract_shipping_details_llm_tool json_loads pages llm
        = (Return None, [])).
Proof.
  intros Hblank. split; [|split].
  - by apply finder_no_keyword, blank_text_no_keyword.
  - intros llm. unfold extract_bl_number_llm_tool.
    by rewrite strip_all_space.
  - intros llm. unfold extract_shipping_details_llm_tool.
    by rewrite strip_all_space.
Qed.

End BlankText.

(** A scanned document: one page without text, one with line breaks only. *)
Lemma blank_text_short_circuit_witness :
  extract_bl_number_from_pdf [""; LF +:+ " " +:+ CR +:+ LF]
  = BL_Number_Not_Found
  /\ (forall llm,
        extract_bl_number_llm_tool [""; LF +:+ " " +:+ CR +:+ LF] llm
        = (Return BL_Number_Not_Found, []))
  /\ (forall llm,
        extract_shipping_details_llm_tool JsonFragment.loads
          [""; LF +:+ " " +:+ CR +:+ LF] llm
        = (Return None, [])).
Proof.
  apply (blank_text_short_circuit JsonFragment.loads
           [""; LF +:+ " " +:+ CR +:+ LF]).
  reflexivity.
Defined.

(** ** The shape of the identifiers *)

Lemma str_all_app p s t : str_all p (s +:+ t) = str_all p s && str_all p t.
Proof.
  induction s as [|c s IH]; [done|].
  rewrite str_app_cons. cbn [str_all]. by rewrite IH, andb_assoc.
Qed.

Lemma block_loop_alnum acc s :
  str_all alnum acc = true -> str_all alnum (block_loop acc s) = true.
Proof.
  revert acc. induction s as [|c s IH]; intros acc Hacc; [done|].
  cbn [block_loop]. destruct (char_in c valid_chars) eqn:Hc.
  - apply IH. rewrite str_all_app, Hacc. cbn [str_all]. unfold alnum at 1.
    by rewrite Hc.
  - destruct (truthy acc); auto.
Qed.

Lemma upper_of_alnum s :
  str_all alnum s = true -> str_all upper_alnum (upper s) = true.
Proof.
  induction s as [|c s IH]; [done|]. cbn [str_all upper].
  intros [Hc Hs]%andb_true_iff. by rewrite upper_char_alnum, IH.
Qed.

Lemma is_identifier_prefixed payload :
  payload <> "" -> str_all upper_alnum payload = true ->
  is_identifier ("BL-" +:+ payload) = true.
Proof.
  intros Hne Hall. str_norm. unfold is_identifier.
  cbn [startswith drop]. rewrite startswith_empty, Hall.
  destruct payload; [done|]. by rewrite !orb_true_r.
Qed.

Lemma keyword_loop_identifier full_text full_text_upper kws :
  is_identifier (keyword_loop full_text full_text_upper kws) = true.
Proof.
  induction kws as [|k kws IH]; [done|].
  cbn [keyword_loop]. cbv zeta.
  destruct (contains full_text_upper (upper k)); [|done].
  set (b := _get_alphanumeric_block _ _).
  assert (Hb : str_all upper_alnum (upper b) = true).
  { by apply upper_of_alnum, block_loop_alnum. }
  destruct (upper b) eqn:E; [done|]. cbn [truthy].
  by apply is_identifier_prefixed.
Qed.

(** C6 (amended). Identifier invariant: every string the pattern-based finder
    returns is the sentinel or "BL-" followed by at least one character, all
    of them upper-case letters or digits.  The single-field model extractor
    always returns a string, which has that shape too unless the model's
    answer, trimmed and upper-cased, holds no run of eight characters of
    [[A-Z0-9]]: then the string is "BL-" followed by that whole answer, as
    it is. *)
Theorem identifier_shape (pages : list string) (llm : llm_service) :
  is_identifier (extract_bl_number_from_pdf pages) = true
  /\ exists out,
       fst (extract_bl_number_llm_tool pages llm) = Return out
       /\ (is_identifier out = true
           \/ exists raw,
                llm (generate_content_request (bl_prompt (extract_text pages)))
                  = Return (Some raw)
                /\ out = "BL-" +:+ upper (strip raw)
                /\ forall i, run_at upper_alnum 8 (upper (strip raw)) i = false).
Proof.
  split; [apply keyword_loop_identifier|].
  unfold extract_bl_number_llm_tool.
  destruct (negb (truthy (strip (extract_text pages)))); cbn [fst].
  { exists BL_Number_Not_Found. by split; [|left]. }
  destruct (llm _) as [[raw|]|e] eqn:Hllm;
    [|exists BL_Number_Not_Found; by split; [|left]..].
  destruct (clean_bl_response_spec raw) as (out & E & Hout).
  exists out. cbn [mbind result_bind]. rewrite E. split; [done|].
  destruct Hout as [_|pre run rest _ _ _ _ Hall Hlen _|_ _ Hnone].
  - by left.
  - left. apply is_identifier_prefixed; [|done]. intros ->. simpl in Hlen. lia.
  - right. by exists raw.
Qed.

(** C6 as stated fails on the model path: an empty answer gives "BL-" with
    an empty payload, and an answer such as "n/a" gives a payload that is
    not alphanumeric. *)
Lemma empty_answer_gives_empty_payload :
  fst (extract_bl_number_llm_tool ["B/L: ABN123456"] (fun _ => Return (Some "")))
  = Return "BL-"
  /\ is_identifier "BL-" = false
  /\ fst (extract_bl_number_llm_tool ["B/L: ABN123456"]
            (fun _ => Return (Some "n/a")))
     = Return "BL-N/A"
  /\ is_identifier "BL-N/A" = false.
Proof. by repeat split. Qed.

(** ** The answer of the model, structured variant *)

Lemma space_not_brace c :
  isspace c = true -> Ascii.eqb c "{" = false /\ Ascii.eqb c "}" = false.
Proof. ascii_cases c; intros H; try done; by vm_compute in H. Qed.

Lemma upto_last_rbrace_none s :
  char_in "}" s = false -> upto_last_rbrace s = None.
Proof.
  induction s as [|c s IH]; [done|]. cbn [char_in upto_last_rbrace].
  intros [Hc Hs]%orb_false_iff. rewrite IH by done.
  by rewrite Ascii.eqb_sym, Hc.
Qed.

Lemma upto_last_rbrace_app mid post :
  char_in "}" post = false ->
  upto_last_rbrace (mid +:+ "}" +:+ post) = Some (mid +:+ "}").
Proof.
  intros Hpost. induction mid as [|c mid IH].
  - str_norm. cbn [upto_last_rbrace]. by rewrite upto_last_rbrace_none.
  - revert IH. set (t := "}" +:+ post). intros IH.
    rewrite !str_app_cons. cbn [upto_last_rbrace]. by rewrite IH.
Qed.


(** The match runs from the first opening brace to the last closing one. *)
Lemma re_search_braces_app pre mid post :
  char_in "{" pre = false -> char_in "}" post = false ->
  re_search_braces (pre +:+ "{" +:+ mid +:+ "}" +:+ post)
  = Some ("{" +:+ mid +:+ "}").
Proof.
  intros Hpre Hpost. induction pre as [|c pre IH].
  - rewrite str_app_empty_l, (str_app_cons "{" "").
    cbn [re_search_braces]. rewrite Ascii.eqb_refl, str_app_empty_l.
    by rewrite upto_last_rbrace_app.
  - revert IH. set (t := "{" +:+ mid +:+ "}" +:+ post). intros IH.
    rewrite str_app_cons. cbn [re_search_braces char_in] in *.
    apply orb_false_iff in Hpre as [Hc Hpre].
    rewrite Ascii.eqb_sym, Hc. auto.
Qed.


Lemma re_search_braces_lstrip s :
  re_search_braces (lstrip s) = re_search_braces s.
Proof.
  induction s as [|c s IH]; [done|]. cbn [lstrip].
  destruct (isspace c) eqn:Hc; [|done].
  rewrite IH. cbn [re_search_braces].
  by destruct (space_not_brace c Hc) as [-> _].
Qed.

Lemma upto_last_rbrace_rstrip s :
  upto_last_rbrace (rstrip s) = upto_last_rbrace s.
Proof.
  induction s as [|c s IH]; [done|]. cbn [rstrip].
  destruct (rstrip s) as [|d r].
  - cbn [upto_last_rbrace] in *. rewrite <- IH.
    destruct (isspace c) eqn:Hc; [|done].
    by destruct (space_not_brace c Hc) as [_ ->].
  - cbn [upto_last_rbrace] in *. by rewrite <- IH.
Qed.

Lemma re_search_braces_rstrip s :
  re_search_braces (rstrip s) = re_search_braces s.
Proof.
  induction s as [|c s IH]; [done|].
  pose proof (upto_last_rbrace_rstrip s) as Hlast.
  cbn [rstrip]. destruct (rstrip s) as [|d r].
  - cbn [re_search_braces upto_last_rbrace] in *. rewrite <- IH, <- Hlast.
    destruct (isspace c) eqn:Hc.
    + by destruct (space_not_brace c Hc) as [-> _].
    + cbn [re_search_braces upto_last_rbrace]. by destruct (Ascii.eqb c "{").
  - cbn [re_search_braces] in *. by rewrite Hlast, IH.
Qed.

(** Trimming the answer does not change the match. *)
Lemma re_search_braces_strip s :
  re_search_braces (strip s) = re_search_braces s.
Proof. unfold strip. by rewrite re_search_braces_rstrip, re_search_braces_lstrip. Qed.

Lemma upper_is_upper s : is_upper (upper s) = true.
Proof.
  induction s as [|c s IH]; [done|]. unfold is_upper in *.
  cbn [upper str_all]. by rewrite upper_char_no_lower, IH.
Qed.

Section StructuredExtractorProperties.

Variable json_loads : string -> result pyval.

Lemma details_tool_answered pages llm text :
  truthy (strip (extract_text pages)) = true ->
  llm (generate_content_request (details_prompt (extract_text pages)))
    = Return text ->
  fst (extract_shipping_details_llm_tool json_loads pages llm)
  = try_except (parse_details_response json_loads text)
      (fun _ => Return None).
Proof.
  intros Htext Hllm. unfold extract_shipping_details_llm_tool.
  rewrite Htext. cbn [negb fst]. by rewrite Hllm.
Qed.

(** The normalisation of a parsed object: both fields are read from the
    object as parsed, the second after the first has been stored. *)
Lemma parse_details_dict raw span d :
  re_search_braces raw = Some span ->
  json_loads span = Return (PyDict d) ->
  parse_details_response json_loads (Some raw)
  = (bl ← py_strip (default (PyStr "NOT_FOUND") (d !! "BL_Number"));
     cn ← py_strip (default (PyStr "NOT_FOUND") (d !! "Container_Number"));
     Return (Some (PyDict (<["Container_Number" := PyStr (upper cn)]>
                             (<["BL_Number" := PyStr (upper bl)]> d))))).
Proof.
  intros Hspan Hjson. unfold parse_details_response.
  cbn [as_str mbind result_bind]. rewrite re_search_braces_strip, Hspan, Hjson.
  cbn [mbind result_bind py_get].
  destruct (py_strip (default _ (d !! "BL_Number"))) as [bl|e]; [|done].
  cbn [mbind result_bind py_setitem py_get]. by rewrite lookup_insert_ne by discriminate.
Qed.


(** C10. A field that is present but not a string aborts the attachment: when
    the isolated span parses to an object in which "BL_Number" or
    "Container_Number" is bound to a value that is not a string, the extractor
    returns the absence signal. *)
Theorem non_string_field_gives_absence
  (pages : list string) (llm : llm_service) (raw pre mid post : string)
  (d : gmap string pyval) :
  truthy (strip (extract_text pages)) = true ->
  llm (generate_content_request (details_prompt (extract_text pages)))
    = Return (Some raw) ->
  raw = pre +:+ "{" +:+ mid +:+ "}" +:+ post ->
  char_in "{" pre = false -> char_in "}" post = false ->
  json_loads ("{" +:+ mid +:+ "}") = Return (PyDict d) ->
  (exists v, d !! "BL_Number" = Some v /\ is_str v = false)
  \/ (exists v, d !! "Container_Number" = Some v /\ is_str v = false) ->
  fst (extract_shipping_details_llm_tool json_loads pages llm) = Return None.
Proof.
  intros Htext Hllm -> Hpre Hpost Hd Hfield.
  rewrite (details_tool_answered _ _ _ Htext Hllm).
  rewrite (parse_details_dict _ _ _ (re_search_braces_app pre mid post Hpre Hpost) Hd).
  destruct Hfield as [(v & -> & Hv)|(v & -> & Hv)]; cbn [default].
  - by destruct v.
  - destruct (py_strip (default _ (d !! "BL_Number"))); [|done].
    by destruct v.
Qed.

End StructuredExtractorProperties.


(** An answer in which the B/L number is a JSON number. *)
Lemma non_string_field_gives_absence_witness :
  fst (extract_shipping_details_llm_tool JsonFragment.loads
         ["B/L: 12345"]
         (fun _ => Return (Some
            ("Sure: {" +:+ json_text "'BL_Number': 12345, 'Container_Number': 'TEMU1234567'"
             +:+ "}"))))
  = Return None.
Proof.
  eapply (non_string_field_gives_absence JsonFragment.loads
            ["B/L: 12345"] _ _
            "Sure: "
            (json_text "'BL_Number': 12345, 'Container_Number': 'TEMU1234567'")
            ""
            (<["Container_Number" := PyStr "TEMU1234567"]>
               (<["BL_Number" := PyInt 12345]> ∅))).
  - by vm_compute.
  - reflexivity.
  - by vm_compute.
  - by vm_compute.
  - by vm_compute.
  - by vm_compute.
  - left. exists (PyInt 12345). by vm_compute.
Defined.

(** ** The sheet lookup *)

Lemma row_test_spec (i : Z) container_number (row : list string) :
  (0 <? i)%Z
  && (CONTAINER_COLUMN_INDEX <? length row)
  && match row !! CONTAINER_COLUMN_INDEX with
     | Some cell => contains cell container_number
     | None => false
     end = true
  <-> (0 < i)%Z /\ row_matches container_number row.
Proof.
  unfold row_matches. rewrite !andb_true_iff, Z.ltb_lt, Nat.ltb_lt. split.
  - intros [[Hi Hlen] Hcell]. split; [done|].
    destruct (row !! CONTAINER_COLUMN_INDEX) as [cell|]; [|done]. by exists cell.
  - intros [Hi (cell & Hcell & Hin)]. rewrite Hcell. repeat split; try done.
    by eapply lookup_lt_Some.
Qed.

Lemma sheet_loop_miss rows container_number latest_bl_number (i : Z) :
  (forall j r, rows !! j = Some r -> (0 < i + Z.of_nat j)%Z ->
               ~ row_matches container_number r) ->
  sheet_loop i rows container_number latest_bl_number = [].
Proof.
  revert i. induction rows as [|row rows IH]; intros i Hnone; [done|].
  cbn [sheet_loop].
  destruct (_ && _ && _) eqn:Htest.
  - apply row_test_spec in Htest as [Hi Hrow].
    destruct (Hnone 0 row); [done|lia|done].
  - apply IH. intros j r Hr Hj. apply (Hnone (S j) r); [done|lia].
Qed.

Lemma sheet_loop_hit before row after container_number latest_bl_number (i : Z) :
  (forall j r, before !! j = Some r -> (0 < i + Z.of_nat j)%Z ->
               ~ row_matches container_number r) ->
  (0 < i + Z.of_nat (length before))%Z ->
  row_matches container_number row ->
  sheet_loop i (before ++ row :: after) container_number latest_bl_number
  = [update_sheet_cell (i + Z.of_nat (length before)) latest_bl_number "E"].
Proof.
  revert i. induction before as [|r before IH]; intros i Hnone Hi Hrow.
  - cbn [app sheet_loop length] in *.
    replace (i + Z.of_nat 0)%Z with i in * by lia.
    destruct (_ && _ && _) eqn:Htest; [done|].
    apply not_true_iff_false in Htest. destruct Htest.
    by apply row_test_spec.
  - cbn [app sheet_loop length] in *.
    destruct (_ && _ && _) eqn:Htest.
    + apply row_test_spec in Htest as [Hi' Hr].
      destruct (Hnone 0 r); [done|lia|done].
    + assert (Hnone' : forall j r', before !! j = Some r' ->
                (0 < i + 1 + Z.of_nat j)%Z -> ~ row_matches container_number r').
      { intros j r' Hr' Hj. apply (Hnone (S j) r'); [done|lia]. }
      rewrite (IH (i + 1)%Z Hnone') by (lia || done).
      by replace (i + 1 + Z.of_nat (length before))%Z
        with (i + Z.of_nat (S (length before)))%Z by lia.
Qed.

(** C8 (amended). Sheet reconciliation: when the container number is empty
    or contains "NOT_FOUND", the sheet is neither read nor updated.
    Otherwise the sheet is read and its rows are scanned from the top: at
    the first row after the header whose cell of index 3 exists and contains
    the container number, one update of the cell in column E of that row
    (row number: index plus one) carries the latest B/L number, and the scan
    stops; when no row after the header matches, no update is issued. *)
Theorem sheet_reconciliation
  (sheet_data : list (list string)) (container_number latest_bl_number : string) :
  (container_number = "" \/ contains container_number "NOT_FOUND" = true ->
   sheet_lookup_and_update container_number latest_bl_number sheet_data = [])
  /\ (container_number <> "" ->
      contains container_number "NOT_FOUND" = false ->
      (forall before row after,
         sheet_data = before ++ row :: after ->
         0 < length before ->
         row_matches container_number row ->
         (forall j r, 0 < j -> before !! j = Some r ->
                      ~ row_matches container_number r) ->
         sheet_lookup_and_update container_number latest_bl_number sheet_data
         = [ValuesGet SPREADSHEET_ID SHEET_RANGE;
            ValuesUpdate SPREADSHEET_ID
              ("Sheet1!E" +:+ pretty (Z.of_nat (length before) + 1)%Z)
              "USER_ENTERED" [[latest_bl_number]]])
      /\ ((forall j r, 0 < j -> sheet_data !! j = Some r ->
                       ~ row_matches container_number r) ->
          sheet_lookup_and_update container_number latest_bl_number sheet_data
          = [ValuesGet SPREADSHEET_ID SHEET_RANGE])).
Proof.
  unfold sheet_lookup_and_update. split.
  - intros [-> | ->]; [done|]. by rewrite andb_false_r.
  - intros Hne Hfound. rewrite Hfound.
    replace (truthy container_number) with true by (by destruct container_number).
    cbn [andb negb]. split.
    + intros before row after -> Hlen Hrow Hfirst.
      rewrite sheet_loop_hit; [done| |lia|done].
      intros j r Hr Hj. apply (Hfirst j); [lia|done].
    + intros Hnone. rewrite sheet_loop_miss; [done|].
      intros j r Hr Hj. apply (Hnone j); [lia|done].
Qed.

(** The row-match scenario of the specification. *)
Lemma sheet_reconciliation_witness :
  sheet_lookup_and_update "TEMU1234567" "BL-XYZ"
    [["header"]; ["x"; "y"; "z"; "TEMU1234567"]]
  = [ValuesGet SPREADSHEET_ID SHEET_RANGE;
     ValuesUpdate SPREADSHEET_ID "Sheet1!E2" "USER_ENTERED" [["BL-XYZ"]]].
Proof.
  destruct (sheet_reconciliation [["header"]; ["x"; "y"; "z"; "TEMU1234567"]]
              "TEMU1234567" "BL-XYZ") as [_ Hscan].
  destruct Hscan as [Hhit _]; [discriminate|reflexivity|].
  rewrite (Hhit [["header"]] ["x"; "y"; "z"; "TEMU1234567"] []).
  - reflexivity.
  - reflexivity.
  - simpl. lia.
  - exists "TEMU1234567". by vm_compute.
  - intros [|[|j]] r Hj Hr; [lia|done..].
Defined.

(** C8 as stated fails for a container number that does not pass the guard:
    the row holds it, and no update is issued. *)
Lemma guarded_container_is_not_looked_up :
  row_matches "NOT_FOUND" ["x"; "y"; "z"; "NOT_FOUND"]
  /\ sheet_lookup_and_update "NOT_FOUND" "BL-XYZ"
       [["header"]; ["x"; "y"; "z"; "NOT_FOUND"]] = []
  /\ row_matches "" ["x"; "y"; "z"; "TEMU1234567"]
  /\ sheet_lookup_and_update "" "BL-XYZ"
       [["header"]; ["x"; "y"; "z"; "TEMU1234567"]] = [].
Proof.
  repeat split.
  - by exists "NOT_FOUND".
  - by exists "TEMU1234567".
Qed.

(** ** The scenarios of the specification, evaluated *)

Example scenario_A :
  extract_bl_number_from_pdf ["... B/L: ABN123456 CONTAINER ..."] = "BL-ABN123456".
Proof. reflexivity. Qed.

Example keywords_are_tried_in_their_order :
  extract_bl_number_from_pdf ["BL: ABC B/L: XYZ9"] = "BL-XYZ9".
Proof. reflexivity. Qed.

Example lower_case_keyword_on_two_lines :
  extract_bl_number_from_pdf ["Ref.  shipment no.:" +:+ LF +:+ "x9y-z"] = "BL-X9Y".
Proof. reflexivity. Qed.

Example scenario_B :
  extract_bl_number_llm_tool ["B/L: ?"] (fun _ => Return (Some "BL_Number_Not_Found"))
  = (Return "BL_Number_Not_Found",
     [generate_content_request (bl_prompt "B/L: ?")]).
Proof. reflexivity. Qed.

Example answer_without_text :
  fst (extract_bl_number_llm_tool ["B/L: ?"] (fun _ => Return None))
  = Return "BL_Number_Not_Found".
Proof. reflexivity. Qed.

Example answer_without_braces :
  fst (extract_shipping_details_llm_tool JsonFragment.loads ["B/L: ?"]
         (fun _ => Return (Some "I could not find any number.")))
  = Return None.
Proof. reflexivity. Qed.

Example answer_with_broken_json :
  fst (extract_shipping_details_llm_tool JsonFragment.loads ["B/L: ?"]
         (fun _ => Return (Some (json_text "{'BL_Number': 'abc123', }"))))
  = Return None.
Proof. by vm_compute. Qed.

Example later_matching_rows_are_not_updated :
  sheet_lookup_and_update "TEMU1234567" "BL-XYZ"
    [["header"; "b"; "c"; "TEMU1234567"];
     ["1"; "2"];
     ["x"; "y"; "z"; "old TEMU1234567"];
     ["x"; "y"; "z"; "TEMU1234567"]]
  = [ValuesGet SPREADSHEET_ID SHEET_RANGE;
     ValuesUpdate SPREADSHEET_ID "Sheet1!E3" "USER_ENTERED" [["BL-XYZ"]]].
Proof. by vm_compute. Qed.

(** * Further properties of the code *)

(** ** Text extraction: composition, invariants, bounds *)

Lemma string_pair_ind (P : string -> Prop) :
  P "" ->
  (forall c, P (String c "")) ->
  (forall c d s, P s -> P (String d s) -> P (String c (String d s))) ->
  forall s, P s.
Proof.
  intros H0 H1 H2 s.
  assert (H : P s /\ forall c, P (String c s)); [|by destruct H].
  induction s as [|d s [IH1 IH2]]; [by split|].
  split; [apply IH2|]. intros c. by apply H2.
Qed.

Lemma collapse_pairs_unfold c d s :
  collapse_pairs (String c (String d s))
  = if Ascii.eqb c " " && Ascii.eqb d " "
    then String " " (collapse_pairs s)
    else String c (collapse_pairs (String d s)).
Proof. reflexivity. Qed.

Lemma char_in_app c s t : char_in c (s +:+ t) = char_in c s || char_in c t.
Proof.
  induction s as [|d s IH]; [done|].
  rewrite str_app_cons. cbn [char_in]. by rewrite IH, orb_assoc.
Qed.

Lemma char_in_collapse_pairs c s :
  char_in c (collapse_pairs s) = true -> char_in c s = true.
Proof.
  induction s as [|a|a b s IH1 IH2] using string_pair_ind; [done..|].
  rewrite collapse_pairs_unfold.
  destruct (Ascii.eqb a " " && Ascii.eqb b " ") eqn:E.
  - apply andb_true_iff in E as [->%Ascii.eqb_eq ->%Ascii.eqb_eq].
    cbn [char_in]. intros [->|H]%orb_true_iff; [done|].
    by rewrite (IH1 H), !orb_true_r.
  - cbn [char_in] in *. intros [->|H]%orb_true_iff; [done|].
    by rewrite (IH2 H), orb_true_r.
Qed.

Lemma newline_to_space_not_newline c :
  Ascii.eqb "010" (newline_to_space c) = false
  /\ Ascii.eqb "013" (newline_to_space c) = false.
Proof.
  unfold newline_to_space.
  destruct (Ascii.eqb_spec c "010") as [->|N1]; [done|].
  destruct (Ascii.eqb_spec c "013") as [->|N2]; [done|].
  cbn [orb]. split; by apply Ascii.eqb_neq.
Qed.

Lemma normalize_page_no_newline page :
  char_in "010" (normalize_page page) = false
  /\ char_in "013" (normalize_page page) = false.
Proof.
  rewrite normalize_page_spec.
  assert (H : forall c, Ascii.eqb c "010" || Ascii.eqb c "013" = true ->
                        char_in c (map_chars newline_to_space page) = false).
  { intros c Hc. induction page as [|a page IH]; [done|].
    cbn [map_chars char_in]. rewrite IH, orb_false_r.
    destruct (newline_to_space_not_newline a) as [H1 H2].
    apply orb_true_iff in Hc as [->%Ascii.eqb_eq| ->%Ascii.eqb_eq]; done. }
  split.
  - destruct (char_in "010" (collapse_pairs _)) eqn:E; [|done].
    apply char_in_collapse_pairs in E. by rewrite H in E.
  - destruct (char_in "013" (collapse_pairs _)) eqn:E; [|done].
    apply char_in_collapse_pairs in E. by rewrite H in E.
Qed.

Lemma extract_text_cons page pages :
  extract_text (page :: pages) = normalize_page page +:+ extract_text pages.
Proof.
  unfold extract_text. cbn [fold_left].
  by rewrite !extract_text_from, !str_app_empty_l.
Qed.

Lemma extract_text_append pages more :
  extract_text (pages ++ more) = extract_text pages +:+ extract_text more.
Proof.
  induction pages as [|p pages IH]; [done|].
  cbn [app]. by rewrite !extract_text_cons, IH, str_app_assoc.
Qed.

(** X1. The text of a document is built page by page and nothing happens at
    a page boundary: the text of [pages ++ more] is the text of [pages]
    followed by the text of [more]. *)
Theorem extract_text_of_appended_pages (pages more : list string) :
  extract_text (pages ++ more) = extract_text pages +:+ extract_text more.
Proof. apply extract_text_append. Qed.

(** X2. The extracted text never holds a line feed or a carriage return. *)
Theorem extracted_text_has_no_line_break (pages : list string) :
  char_in "010" (extract_text pages) = false
  /\ char_in "013" (extract_text pages) = false.
Proof.
  induction pages as [|p pages [IH1 IH2]]; [done|].
  rewrite extract_text_cons, !char_in_app, IH1, IH2.
  by destruct (normalize_page_no_newline p) as [-> ->].
Qed.

Lemma collapse_pairs_length s :
  String.length (collapse_pairs s) <= String.length s
  /\ String.length s <= 2 * String.length (collapse_pairs s).
Proof.
  induction s as [|a|a b s IH1 IH2] using string_pair_ind;
    [simpl; lia..|].
  rewrite collapse_pairs_unfold.
  destruct (Ascii.eqb a " " && Ascii.eqb b " "); cbn [String.length] in *; lia.
Qed.

Lemma map_chars_length f s : String.length (map_chars f s) = String.length s.
Proof. induction s as [|c s IH]; [done|]. simpl. by rewrite IH. Qed.

(** X3. Normalisation never lengthens a page and at most halves it: the text
    of a document is no longer than its pages together and at least half as
    long. *)
Theorem extracted_text_length_bounds (pages : list string) :
  String.length (extract_text pages)
    <= foldr (fun page n => String.length page + n) 0 pages
  /\ foldr (fun page n => String.length page + n) 0 pages
    <= 2 * String.length (extract_text pages).
Proof.
  induction pages as [|p pages [IH1 IH2]]; [simpl; lia|].
  rewrite extract_text_cons, str_length_app, normalize_page_spec.
  pose proof (collapse_pairs_length (map_chars newline_to_space p)) as [H1 H2].
  rewrite map_chars_length in H1, H2. cbn [foldr]. lia.
Qed.

Lemma map_newline_id s :
  char_in "010" s = false -> char_in "013" s = false ->
  map_chars newline_to_space s = s.
Proof.
  induction s as [|c s IH]; [done|]. cbn [char_in map_chars].
  intros [H1 Hs1]%orb_false_iff [H2 Hs2]%orb_false_iff.
  rewrite IH by done. f_equal. unfold newline_to_space.
  by rewrite (Ascii.eqb_sym c "010"), (Ascii.eqb_sym c "013"), H1, H2.
Qed.

Lemma contains_two_spaces_unfold c d s :
  contains (String c (String d s)) "  "
  = Ascii.eqb c " " && Ascii.eqb d " " || contains (String d s) "  ".
Proof.
  cbn [contains startswith].
  by rewrite startswith_empty, andb_true_r, (Ascii.eqb_sym " " c),
    (Ascii.eqb_sym " " d).
Qed.

Lemma collapse_pairs_id s : contains s "  " = false -> collapse_pairs s = s.
Proof.
  induction s as [|a|a b s IH1 IH2] using string_pair_ind; [done..|].
  rewrite contains_two_spaces_unfold, collapse_pairs_unfold.
  intros [-> H]%orb_false_iff. by rewrite IH2.
Qed.

Lemma collapse_pairs_shrinks s :
  contains s "  " = true -> String.length (collapse_pairs s) < String.length s.
Proof.
  induction s as [|a|a b s IH1 IH2] using string_pair_ind.
  - done.
  - cbn [contains startswith]. by rewrite andb_false_r.
  - rewrite contains_two_spaces_unfold, collapse_pairs_unfold.
    destruct (Ascii.eqb a " " && Ascii.eqb b " ").
    + intros _. pose proof (collapse_pairs_length s). cbn [String.length]. lia.
    + intros H. apply IH2 in H. cbn [String.length] in *. lia.
Qed.

(** X4. A page is left as it is by the normalisation exactly when it holds no
    line feed, no carriage return and no two adjacent spaces. *)
Theorem normalize_page_fixed_iff_clean (page : string) :
  normalize_page page = page
  <-> char_in "010" page = false
      /\ char_in "013" page = false
      /\ contains page "  " = false.
Proof.
  split.
  - intros E. destruct (normalize_page_no_newline page) as [H1 H2].
    rewrite E in H1, H2. repeat split; try done.
    rewrite normalize_page_spec, map_newline_id in E by done.
    destruct (contains page "  ") eqn:Hc; [|done].
    apply collapse_pairs_shrinks in Hc. rewrite E in Hc. lia.
  - intros (H1 & H2 & H3).
    by rewrite normalize_page_spec, map_newline_id, collapse_pairs_id.
Qed.

(** ** The helper [_get_alphanumeric_block] *)

Ltac str_simp := repeat (rewrite str_app_cons || rewrite str_app_empty_l).

Lemma block_loop_started acc s :
  acc <> "" ->
  exists run rest,
    s = run +:+ rest
    /\ str_all alnum run = true
    /\ ends_run alnum rest
    /\ block_loop acc s = acc +:+ run.
Proof.
  revert acc. induction s as [|c s IH]; intros acc Hacc.
  - exists "", "". by rewrite !str_app_empty_r.
  - cbn [block_loop]. destruct (char_in c valid_chars) eqn:Hc.
    + destruct (IH (acc +:+ String c "")) as (run & rest & -> & Hrun & Hrest & E).
      { by destruct acc. }
      exists (String c run), rest. rewrite E, str_app_assoc. cbn [str_all].
      unfold alnum at 1. by rewrite Hc.
    + exists "", (String c s). rewrite str_app_empty_r.
      repeat split; [done|]. by destruct acc.
Qed.

Lemma block_loop_fresh s :
  exists skipped rest,
    s = skipped +:+ block_loop "" s +:+ rest
    /\ str_all (fun c => negb (alnum c)) skipped = true
    /\ str_all alnum (block_loop "" s) = true
    /\ ends_run alnum rest
    /\ (block_loop "" s = "" -> rest = "").
Proof.
  induction s as [|c s (skipped & rest & E & Hsk & Hrun & Hrest & Hnone)].
  - by exists "", "".
  - cbn [block_loop truthy]. destruct (char_in c valid_chars) eqn:Hc.
    + destruct (block_loop_started ("" +:+ String c "") s)
        as (run & rest' & -> & Hrun' & Hrest' & E'); [done|].
      exists "", rest'. rewrite E'. str_simp. cbn [str_all]. unfold alnum at 1.
      by rewrite Hc.
    + exists (String c skipped), rest. rewrite str_app_cons, <- E.
      cbn [str_all]. unfold alnum at 1. by rewrite Hc.
Qed.

(** X5. What the helper returns, for every text and start index: the text
    from the index on is a stretch without letters or digits, then the
    returned block, made of letters and digits only, then a rest that is
    empty or begins with a character that is neither; when the block is
    empty nothing follows the skipped stretch. *)
Theorem alphanumeric_block_is_first_run (text : string) (start_index : Z) :
  exists skipped rest,
    slice_from text start_index
    = skipped +:+ _get_alphanumeric_block text start_index +:+ rest
    /\ str_all (fun c => negb (alnum c)) skipped = true
    /\ str_all alnum (_get_alphanumeric_block text start_index) = true
    /\ ends_run alnum rest
    /\ (_get_alphanumeric_block text start_index = "" -> rest = "").
Proof. apply block_loop_fresh. Qed.

Lemma drop_all n s : String.length s <= n -> drop n s = "".
Proof.
  revert s. induction n as [|n IH]; intros [|c s] H; try done.
  - simpl in H. lia.
  - cbn [drop]. apply IH. simpl in H. lia.
Qed.

Lemma str_all_negb_alnum_block s :
  str_all (fun c => negb (alnum c)) s = true -> block_loop "" s = "".
Proof.
  intros H. rewrite <- (str_app_empty_r s) at 1. by rewrite block_loop_skip.
Qed.

(** X6. The helper returns the empty string exactly when no letter or digit
    stands at or after the start index; in particular a start index at or
    beyond the end of the text gives the empty string. *)
Theorem alphanumeric_block_empty_iff (text : string) (start_index : Z) :
  (_get_alphanumeric_block text start_index = ""
   <-> str_all (fun c => negb (alnum c)) (slice_from text start_index) = true)
  /\ ((len text <= start_index)%Z -> _get_alphanumeric_block text start_index = "").
Proof.
  split; [split|].
  - intros E.
    destruct (block_loop_fresh (slice_from text start_index))
      as (skipped & rest & Hs & Hsk & _ & _ & Hnone).
    unfold _get_alphanumeric_block in E. rewrite E in Hs.
    rewrite (Hnone E), !str_app_empty_r in Hs. by rewrite Hs.
  - apply str_all_negb_alnum_block.
  - intros Hlen. unfold _get_alphanumeric_block, slice_from, slice_index, len in *.
    destruct (Z.ltb_spec start_index 0); [lia|].
    rewrite drop_all; [done|lia].
Qed.

(** A text that ends with punctuation after the keyword. *)
Lemma alphanumeric_block_empty_iff_witness :
  _get_alphanumeric_block "B/L: --" 40 = "".
Proof.
  apply (proj2 (alphanumeric_block_empty_iff "B/L: --" 40)).
  vm_compute. discriminate.
Defined.

(** ** The keyword search: priority and the warning of [main] *)



Lemma startswith_char_in s sub c :
  startswith s sub = true -> char_in c sub = true -> char_in c s = true.
Proof.
  revert s. induction sub as [|a sub IH]; intros [|b s]; try done.
  cbn [startswith char_in].
  intros [->%Ascii.eqb_eq Hs]%andb_true_iff [->|Hc]%orb_true_iff; [done|].
  by rewrite (IH s Hs Hc), orb_true_r.
Qed.

Lemma contains_char_in s sub c :
  contains s sub = true -> char_in c sub = true -> char_in c s = true.
Proof.
  intros Hs Hc. induction s as [|b s IH].
  - cbn [contains] in Hs. rewrite orb_false_r in Hs.
    by apply (startswith_char_in _ _ _ Hs).
  - cbn [contains] in Hs. apply orb_true_iff in Hs as [Hs|Hs].
    + by apply (startswith_char_in _ _ _ Hs).
    + cbn [char_in]. by rewrite IH, orb_true_r.
Qed.

Lemma is_upper_no_lower s c :
  is_upper s = true -> char_in c ascii_lowercase = true -> char_in c s = false.
Proof.
  intros Hs Hc. induction s as [|a s IH]; [done|].
  unfold is_upper in *. cbn [str_all char_in] in *.
  apply andb_true_iff in Hs as [Ha Hs]. rewrite IH, orb_false_r by done.
  destruct (Ascii.eqb_spec c a) as [->|]; [|done].
  by rewrite Hc in Ha.
Qed.

Lemma upper_alnum_is_upper s : str_all upper_alnum s = true -> is_upper s = true.
Proof.
  unfold is_upper. induction s as [|c s IH]; [done|]. cbn [str_all].
  intros [Hc Hs]%andb_true_iff. rewrite IH, andb_true_r by done.
  revert Hc. ascii_cases c; intros Hc; try done; by vm_compute in Hc.
Qed.

(** A string "BL-" followed by an upper-case payload does not contain
    "Not_Found". *)
Lemma prefixed_upper_not_sentinel payload :
  is_upper payload = true -> contains ("BL-" +:+ payload) "Not_Found" = false.
Proof.
  intros Hup. destruct (contains _ _) eqn:E; [|done].
  apply (contains_char_in _ _ "o") in E; [|done].
  revert E. str_norm. cbn [char_in].
  by rewrite (is_upper_no_lower payload "o").
Qed.

Lemma keyword_loop_cases full_text full_text_upper kws :
  keyword_loop full_text full_text_upper kws = BL_Number_Not_Found
  \/ exists b, keyword_loop full_text full_text_upper kws = "BL-" +:+ upper b.
Proof.
  induction kws as [|k kws IH]; [by left|].
  cbn [keyword_loop]. cbv zeta.
  destruct (contains full_text_upper (upper k)); [|done].
  destruct (truthy _); [|done]. right. by eexists.
Qed.

(** X8. The warning of [main] about a generic folder name ("Not_Found"
    occurs in the number) is raised exactly when the finder returned the
    sentinel: an extracted identifier never contains "Not_Found". *)
Theorem finder_warning_iff_sentinel (pages : list string) :
  contains (extract_bl_number_from_pdf pages) "Not_Found" = true
  <-> extract_bl_number_from_pdf pages = BL_Number_Not_Found.
Proof.
  unfold extract_bl_number_from_pdf, find_bl_number.
  destruct (keyword_loop_cases (extract_text pages) (upper (extract_text pages))
              keywords) as [->|[b ->]]; [done|].
  rewrite prefixed_upper_not_sentinel by apply upper_is_upper.
  split; [done|]. str_norm. discriminate.
Qed.

(** X9. The same for the single-field model extractor, whatever the model
    answers: its result contains "Not_Found" exactly when it is the
    sentinel, so [main] warns exactly then. *)
Theorem llm_tool_warning_iff_sentinel (pages : list string) (llm : llm_service) :
  exists out,
    fst (extract_bl_number_llm_tool pages llm) = Return out
    /\ (contains out "Not_Found" = true <-> out = BL_Number_Not_Found).
Proof.
  unfold extract_bl_number_llm_tool.
  destruct (negb (truthy (strip (extract_text pages)))); cbn [fst];
    [by exists BL_Number_Not_Found|].
  destruct (llm _) as [[raw|]|e]; [|by exists BL_Number_Not_Found..].
  cbn [mbind result_bind]. unfold clean_bl_response. cbn [as_str mbind result_bind].
  destruct (_ || _); [by exists BL_Number_Not_Found|].
  destruct (re_search_alnum8 (upper (strip raw))) as [m|] eqn:Hm; cbn [try_except].
  - apply re_search_alnum8_some in Hm as (_ & _ & _ & _ & Hall & _ & _).
    eexists. split; [done|].
    rewrite prefixed_upper_not_sentinel by by apply upper_alnum_is_upper.
    split; [done|]. str_norm. discriminate.
  - eexists. split; [done|].
    rewrite prefixed_upper_not_sentinel by apply upper_is_upper.
    split; [done|]. str_norm. discriminate.
Qed.

(** ** The prompts: what the model is shown *)

Lemma slice_to_app s t (stop : Z) :
  (0 <= stop <= len s)%Z -> slice_to (s +:+ t) stop = slice_to s stop.
Proof.
  intros H. unfold slice_to, slice_index, len in *.
  destruct (Z.ltb_spec stop 0); [lia|].
  apply take_app_le. lia.
Qed.

Lemma nonblank_app s t :
  truthy (strip s) = true -> truthy (strip (s +:+ t)) = true.
Proof.
  intros Hs. destruct (truthy (strip (s +:+ t))) eqn:E; [done|].
  apply not_truthy, strip_blank in E. rewrite str_all_app in E.
  apply andb_true_iff in E as [E _]. by rewrite (strip_all_space _ E) in Hs.
Qed.

Section PromptWindow.

Variable json_loads : string -> result pyval.

(** X10. The model is shown the first 3000 characters of the text only: once
    the pages hold 3000 characters of text that is not blank, pages added
    after them change neither the request nor the result of either
    extractor. *)
Theorem text_beyond_3000_characters_is_ignored
  (pages more : list string) (llm : llm_service) :
  truthy (strip (extract_text pages)) = true ->
  (3000 <= len (extract_text pages))%Z ->
  extract_bl_number_llm_tool (pages ++ more) llm
  = extract_bl_number_llm_tool pages llm
  /\ extract_shipping_details_llm_tool json_loads (pages ++ more) llm
     = extract_shipping_details_llm_tool json_loads pages llm.
Proof.
  intros Htext Hlen.
  unfold extract_bl_number_llm_tool, extract_shipping_details_llm_tool.
  rewrite extract_text_append, (nonblank_app _ _ Htext), Htext.
  unfold bl_prompt, details_prompt. by rewrite slice_to_app by lia.
Qed.

End PromptWindow.

(** Two hundred pages of fifteen characters each, then one more page. *)
Lemma text_beyond_3000_characters_is_ignored_witness :
  extract_bl_number_llm_tool
    (replicate 200 "B/L: ABN123456 " ++ ["B/L: OTHER99999"])
    (fun _ => Return (Some "ABN123456"))
  = extract_bl_number_llm_tool (replicate 200 "B/L: ABN123456 ")
      (fun _ => Return (Some "ABN123456")).
Proof.
  apply (text_beyond_3000_characters_is_ignored JsonFragment.loads
           (replicate 200 "B/L: ABN123456 ") ["B/L: OTHER99999"]).
  - by vm_compute.
  - vm_compute. discriminate.
Defined.

Lemma take_length_min n s : String.length (take n s) = Nat.min n (String.length s).
Proof.
  revert s. induction n as [|n IH]; intros [|c s]; try done.
  cbn [take String.length]. rewrite IH. lia.
Qed.

Lemma slice_to_3000_length s :
  String.length (slice_to s 3000) = Nat.min 3000 (String.length s).
Proof.
  unfold slice_to, slice_index. rewrite take_length_min.
  destruct (Z.ltb_spec 3000 0); lia.
Qed.

Lemma bl_prompt_length full_text :
  String.length (bl_prompt full_text)
  = 496 + Nat.min 3000 (String.length full_text).
Proof.
  rewrite <- slice_to_3000_length. unfold bl_prompt.
  generalize (slice_to full_text 3000). intros x.
  cbn [String.concat]. unfold LF.
  repeat (rewrite str_length_app || rewrite str_app_cons || rewrite str_app_empty_l
          || cbn [String.length]).
  lia.
Qed.

Lemma details_prompt_length full_text :
  String.length (details_prompt full_text)
  = 524 + Nat.min 3000 (String.length full_text).
Proof.
  rewrite <- slice_to_3000_length. unfold details_prompt.
  generalize (slice_to full_text 3000). intros x.
  cbn [String.concat]. unfold LF, dquote.
  repeat (rewrite str_length_app || rewrite str_app_cons || rewrite str_app_empty_l
          || cbn [String.length]).
  lia.
Qed.

Section RequestSize.

Variable json_loads : string -> result pyval.

(** X11. The size of a request is bounded: every request of the single-field
    extractor has 496 characters of instructions plus the text, cut at 3000
    characters; every request of the structured extractor has 524 plus the
    text, cut at 3000; each extractor sends at most one request per
    document. *)
Theorem request_size_is_bounded (pages : list string) (llm : llm_service) :
  Forall (fun req =>
            String.length (contents req)
            = 496 + Nat.min 3000 (String.length (extract_text pages)))
         (snd (extract_bl_number_llm_tool pages llm))
  /\ Forall (fun req =>
               String.length (contents req)
               = 524 + Nat.min 3000 (String.length (extract_text pages)))
            (snd (extract_shipping_details_llm_tool json_loads pages llm))
  /\ length (snd (extract_bl_number_llm_tool pages llm)) <= 1
  /\ length (snd (extract_shipping_details_llm_tool json_loads pages llm)) <= 1.
Proof.
  unfold extract_bl_number_llm_tool, extract_shipping_details_llm_tool.
  destruct (negb (truthy (strip (extract_text pages)))); cbn [snd length].
  - repeat split; (lia || constructor).
  - repeat split; try lia.
    + repeat constructor. apply bl_prompt_length.
    + repeat constructor. apply details_prompt_length.
Qed.

End RequestSize.

(** ** The sheet lookup: which cell can be written *)

Lemma sheet_loop_cases rows container_number latest_bl_number (i : Z) :
  sheet_loop i rows container_number latest_bl_number = []
  \/ exists j row,
       rows !! j = Some row
       /\ (0 < i + Z.of_nat j)%Z
       /\ row_matches container_number row
       /\ sheet_loop i rows container_number latest_bl_number
          = [update_sheet_cell (i + Z.of_nat j) latest_bl_number "E"].
Proof.
  revert i. induction rows as [|row rows IH]; intros i; [by left|].
  cbn [sheet_loop]. destruct (_ && _ && _) eqn:Htest.
  - right. apply row_test_spec in Htest as [Hi Hrow].
    exists 0, row. replace (i + Z.of_nat 0)%Z with i by lia. by repeat split.
  - destruct (IH (i + 1)%Z) as [->|(j & r & Hr & Hj & Hm & ->)]; [by left|].
    right. exists (S j), r.
    replace (i + Z.of_nat (S j))%Z with (i + 1 + Z.of_nat j)%Z by lia.
    repeat split; try done.
Qed.

(** X12. The header row is never written and at most one cell is: whatever
    the sheet and the container number, the calls are none, or the read
    alone, or the read followed by one update; the update goes to a row
    after the header that holds the container number in its cell of index 3,
    and its range is never "Sheet1!E1". *)
Theorem sheet_update_spares_the_header
  (sheet_data : list (list string)) (container_number latest_bl_number : string) :
  (sheet_lookup_and_update container_number latest_bl_number sheet_data = []
   \/ sheet_lookup_and_update container_number latest_bl_number sheet_data
      = [ValuesGet SPREADSHEET_ID SHEET_RANGE]
   \/ exists i row,
        0 < i
        /\ sheet_data !! i = Some row
        /\ row_matches container_number row
        /\ sheet_lookup_and_update container_number latest_bl_number sheet_data
           = [ValuesGet SPREADSHEET_ID SHEET_RANGE;
              ValuesUpdate SPREADSHEET_ID
                ("Sheet1!E" +:+ pretty (Z.of_nat i + 1)%Z)
                "USER_ENTERED" [[latest_bl_number]]])
  /\ forall option values,
       ~ In (ValuesUpdate SPREADSHEET_ID "Sheet1!E1" option values)
            (sheet_lookup_and_update container_number latest_bl_number sheet_data).
Proof.
  unfold sheet_lookup_and_update.
  destruct (truthy container_number && negb (contains container_number "NOT_FOUND"));
    [|split; [by left|by intros ? ? []]].
  destruct (sheet_loop_cases sheet_data container_number latest_bl_number 0)
    as [->|(j & row & Hrow & Hj & Hm & ->)].
  - split; [right; by left|]. by intros ? ? [|[]].
  - split.
    + right; right. exists j, row. repeat split; try done; lia.
    + intros option values [E|[E|[]]]; [done|].
      unfold update_sheet_cell in E. injection E as E _ _.
      rewrite str_app_empty_l in E. change "1" with (pretty 1%Z) in E.
      apply (inj pretty) in E. lia.
Qed.

(** X13. For a given column, the cell written determines the row and the
    value: two calls of [update_sheet_cell] are the same call only for the
    same row index and the same B/L number. *)
Theorem update_sheet_cell_injective
  (i j : Z) (bl_number bl_number' column : string) :
  update_sheet_cell i bl_number column = update_sheet_cell j bl_number' column
  <-> i = j /\ bl_number = bl_number'.
Proof.
  split; [|by intros [-> ->]].
  unfold update_sheet_cell. intros [= E ->].
  do 2 apply (inj (String.app _)) in E. apply (inj pretty) in E.
  split; [lia|done].
Qed.

(** ** Computations with a trace *)

Lemma traced_bind_unfold {E A B} (m : traced E A) (k : A -> traced E B) :
  m ≫= k
  = match outcome m with
    | Return a => Traced (outcome (k a)) (trace m ++ trace (k a))
    | Raise e => Traced (Raise e) (trace m)
    end.
Proof. reflexivity. Qed.

Lemma traced_bind_Forall {E A B} (P : E -> Prop)
  (m : traced E A) (k : A -> traced E B) :
  Forall P (trace m) -> (forall a, Forall P (trace (k a))) ->
  Forall P (trace (m ≫= k)).
Proof.
  intros Hm Hk. rewrite traced_bind_unfold.
  destruct (outcome m); [|done]. apply Forall_app. split; [done|apply Hk].
Qed.

Lemma for_each_Forall {E A S} (P : E -> Prop) (l : list A) (s : S)
  (body : A -> S -> traced E S) :
  (forall x s, Forall P (trace (body x s))) ->
  Forall P (trace (for_each l s body)).
Proof.
  intros Hbody. revert s. induction l as [|x l IH]; intros s; [constructor|].
  cbn [for_each]. by apply traced_bind_Forall.
Qed.

(** ** Listing the attachments *)

Section Listing.

Variable urlsafe_b64decode : string -> result string.

Lemma part_step_listing gmail message_id p :
  Forall listing_step (trace (part_step urlsafe_b64decode gmail message_id p)).
Proof.
  unfold part_step. destruct (truthy _ && _) eqn:Hpdf; [|constructor].
  apply traced_bind_Forall.
  - destruct (body_data p); [constructor|].
    destruct (body_attachmentId p); [|constructor]. by repeat constructor.
  - intros data. apply traced_bind_Forall; [constructor|].
    intros file_data. by repeat constructor.
Qed.

Lemma listing_steps (query : string) (gmail : gmail_service) :
  Forall listing_step (trace (get_gmail_attachments urlsafe_b64decode query gmail)).
Proof.
  unfold get_gmail_attachments. apply traced_bind_Forall; [by repeat constructor|].
  intros results. destruct (bool_decide _); [constructor|].
  apply for_each_Forall. intros message_id _.
  apply traced_bind_Forall; [by repeat constructor|].
  intros parts. apply for_each_Forall. intros p _. apply part_step_listing.
Qed.

(** X14. Whatever Gmail answers and whether or not the listing fails, the
    generator calls Gmail only, and every pair it yields has a file name
    that is not empty and ends with ".pdf" when put in lower case. *)
Theorem listing_yields_pdf_names_only (query : string) (gmail : gmail_service) :
  Forall listing_step (trace (get_gmail_attachments urlsafe_b64decode query gmail))
  /\ Forall (fun file => fst file <> ""
                         /\ endswith (lower (fst file)) ".pdf" = true)
            (yielded (trace (get_gmail_attachments urlsafe_b64decode query gmail))).
Proof.
  pose proof (listing_steps query gmail) as H.
  split; [done|]. unfold yielded.
  induction H as [|[c|fn data] steps Hst _ IH]; [constructor|done|].
  cbn [omap list_omap]. constructor; [|done].
  cbn [listing_step fst] in *. unfold pdf_name in Hst.
  apply andb_true_iff in Hst as [Hname Hext]. split; [|done].
  by intros ->.
Qed.

End Listing.

(** ** Folder and uploads *)

Lemma for_yielded_pure {S} steps (s : S) body (f : string * string -> S -> S) :
  (forall file s, file ∈ yielded steps ->
                  body (fst file) (snd file) s = mret (f file s)) ->
  for_yielded steps s body
  = Traced (Return (foldl (fun s file => f file s) s (yielded steps)))
      (calls_of steps).
Proof.
  revert s. induction steps as [|[c|fn data] steps IH]; intros s Hbody; [done|..].
  - cbn [for_yielded]. rewrite traced_bind_unfold. cbn [emit outcome trace].
    by rewrite IH.
  - cbn [for_yielded]. rewrite (Hbody (fn, data)) by (cbn; set_solver).
    rewrite traced_bind_unfold. cbn [mret traced_ret outcome trace].
    rewrite IH; [done|]. intros file s' Hin. apply Hbody. cbn. set_solver.
Qed.

(** The state of the loop of [main]: the first number met stays, the files
    accumulate. *)
Lemma gathered_state (number : string * string -> string) files
  (latest : option string) (all_files : list (string * string)) :
  foldl (fun st file =>
           (match fst st with
            | None => Some (number file)
            | Some l => Some l
            end, snd st ++ [file])) (latest, all_files) files
  = (match latest with
     | Some l => Some l
     | None => number <$> head files
     end, all_files ++ files).
Proof.
  revert latest all_files. induction files as [|file files IH]; intros latest all.
  - cbn. rewrite app_nil_r. by destruct latest.
  - cbn [foldl fst snd]. rewrite IH, <- app_assoc. by destruct latest.
Qed.

Lemma uploads_succeed drive folder_id files :
  Forall (fun file =>
            files_create_media drive (fst file) folder_id (snd file) = Return tt)
         files ->
  for_each files tt (fun file_info _ =>
    upload_to_drive drive folder_id (fst file_info) (snd file_info))
  = Traced (Return tt) (upload_call folder_id <$> files).
Proof.
  induction 1 as [|file files Hfile _ IH]; [done|].
  cbn [for_each]. rewrite traced_bind_unfold.
  cbn [upload_to_drive emit outcome trace]. rewrite Hfile. cbv iota beta.
  by rewrite IH.
Qed.

Lemma uploads_stop drive folder_id before file after e :
  Forall (fun file =>
            files_create_media drive (fst file) folder_id (snd file) = Return tt)
         before ->
  files_create_media drive (fst file) folder_id (snd file) = Raise e ->
  for_each (before ++ file :: after) tt (fun file_info _ =>
    upload_to_drive drive folder_id (fst file_info) (snd file_info))
  = Traced (Raise e) (upload_call folder_id <$> (before ++ [file])).
Proof.
  intros Hbefore Hfile. induction Hbefore as [|b before Hb _ IH].
  - cbn [app for_each]. rewrite traced_bind_unfold.
    cbn [upload_to_drive emit outcome trace]. by rewrite Hfile.
  - cbn [app for_each]. rewrite traced_bind_unfold.
    cbn [upload_to_drive emit outcome trace]. rewrite Hb. cbv iota beta.
    by rewrite IH.
Qed.

(** X15. The uploads stop at the first failure and nothing is rolled back:
    when the folder cannot be created no upload is attempted; when the
    upload of a file fails, the folder and the files before it stay
    uploaded, the failing upload is the last call, the files after it are
    not attempted, and the exception leaves [main]. *)
Theorem uploads_stop_at_first_failure
  (drive : drive_service) (latest_bl_number : option string)
  (before after : list (string * string)) (file : string * string)
  (folder_id : string) (e : exn) :
  (files_create_folder drive
     (folder_name_for (format_latest latest_bl_number)) = Raise e ->
   create_and_upload drive latest_bl_number (before ++ file :: after)
   = Traced (Raise e)
       [FilesCreateFolder (folder_name_for (format_latest latest_bl_number))])
  /\ (files_create_folder drive
        (folder_name_for (format_latest latest_bl_number)) = Return folder_id ->
      Forall (fun f => files_create_media drive (fst f) folder_id (snd f)
                       = Return tt) before ->
      files_create_media drive (fst file) folder_id (snd file) = Raise e ->
      create_and_upload drive latest_bl_number (before ++ file :: after)
      = Traced (Raise e)
          (FilesCreateFolder (folder_name_for (format_latest latest_bl_number))
             :: (upload_call folder_id <$> (before ++ [file])))).
Proof.
  unfold create_and_upload, folder_name_for.
  rewrite bool_decide_eq_false_2 by by destruct before.
  cbv zeta. rewrite traced_bind_unfold.
  cbn [create_drive_folder emit outcome trace]. split.
  - by intros ->.
  - intros -> Hbefore Hfile. cbv iota beta.
    by rewrite (uploads_stop _ _ _ _ _ _ Hbefore Hfile).
Qed.

(** A Drive that refuses the second file. *)
Lemma uploads_stop_at_first_failure_witness :
  create_and_upload
    (mk_drive (fun _ => Return "folder-1")
       (fun name _ _ =>
          if String.eqb name "b.pdf"
          then Raise (OtherException "HttpError" "403") else Return tt))
    (Some "BL-ABN123456")
    ([("a.pdf", "A")] ++ ("b.pdf", "B") :: [("c.pdf", "C")])
  = Traced (Raise (OtherException "HttpError" "403"))
      [FilesCreateFolder "Shipment Documents - BL-ABN123456";
       FilesCreateMedia "a.pdf" "folder-1" "A";
       FilesCreateMedia "b.pdf" "folder-1" "B"].
Proof.
  apply (proj2 (uploads_stop_at_first_failure
                  (mk_drive (fun _ => Return "folder-1")
                     (fun name _ _ =>
                        if String.eqb name "b.pdf"
                        then Raise (OtherException "HttpError" "403")
                        else Return tt))
                  (Some "BL-ABN123456") [("a.pdf", "A")] [("c.pdf", "C")]
                  ("b.pdf", "B") "folder-1" (OtherException "HttpError" "403"))).
  - reflexivity.
  - by repeat constructor.
  - reflexivity.
Defined.

(** ** [main] of [src/main.py] *)

Lemma for_yielded_quiet {S} (P : call -> Prop) steps (s : S) body :
  Forall P (calls_of steps) ->
  (forall filename file_data s, trace (body filename file_data s) = []) ->
  Forall P (trace (for_yielded steps s body)).
Proof.
  intros Hcalls Hbody. revert s Hcalls.
  induction steps as [|[c|fn data] steps IH]; intros s Hcalls; [constructor|..].
  - cbn [for_yielded]. apply Forall_cons in Hcalls as [Hc Hcalls].
    apply traced_bind_Forall; [by repeat constructor|]. intros _. by apply IH.
  - cbn [for_yielded]. apply traced_bind_Forall; [by rewrite Hbody|].
    intros s'. by apply IH.
Qed.

Lemma for_in_unfold {S} (generator : traced gen_step unit) (s : S) body :
  for_in generator s body
  = match outcome (for_yielded (trace generator) s body), outcome generator with
    | Return s', Return _ =>
        Traced (Return s') (trace (for_yielded (trace generator) s body))
    | Return _, Raise e | Raise e, _ =>
        Traced (Raise e) (trace (for_yielded (trace generator) s body))
    end.
Proof.
  unfold for_in. rewrite traced_bind_unfold.
  destruct (outcome (for_yielded _ _ _)); [|done].
  rewrite traced_bind_unfold. cbn [pure_step outcome trace].
  destruct (outcome generator); cbn [mret traced_ret outcome trace];
    by rewrite ?app_nil_r.
Qed.

Lemma listing_calls_gmail steps :
  Forall listing_step steps ->
  Forall (fun c => match c with
                   | MessagesList _ | MessagesGet _ | AttachmentsGet _ _ => True
                   | _ => False
                   end) (calls_of steps).
Proof.
  induction 1 as [|[c|fn data] steps Hst _ IH]; [constructor| |done].
  cbn. constructor; [|done]. by destruct c.
Qed.

Lemma drive_calls_of_gmail cs :
  Forall (fun c => match c with
                   | MessagesList _ | MessagesGet _ | AttachmentsGet _ _ => True
                   | _ => False
                   end) cs ->
  drive_calls cs = [] /\ model_requests cs = [].
Proof.
  induction 1 as [|c cs Hc _ [IH1 IH2]]; [done|].
  unfold drive_calls, model_requests in *. cbn. rewrite IH1, IH2.
  by destruct c.
Qed.

Lemma drive_calls_app cs cs' :
  drive_calls (cs ++ cs') = drive_calls cs ++ drive_calls cs'.
Proof. apply omap_app. Qed.

Lemma model_requests_app cs cs' :
  model_requests (cs ++ cs') = model_requests cs ++ model_requests cs'.
Proof. apply omap_app. Qed.

Lemma create_and_upload_succeeds (drive : drive_service)
  (latest_bl_number : option string) (files : list (string * string))
  (folder_id : string) :
  files <> [] ->
  files_create_folder drive (folder_name_for (format_latest latest_bl_number))
    = Return folder_id ->
  Forall (fun file => files_create_media drive (fst file) folder_id (snd file)
                      = Return tt) files ->
  create_and_upload drive latest_bl_number files
  = Traced (Return tt)
      (FilesCreateFolder (folder_name_for (format_latest latest_bl_number))
         :: (upload_call folder_id <$> files)).
Proof.
  intros Hfiles Hfolder Huploads. unfold create_and_upload.
  rewrite bool_decide_eq_false_2 by done. cbv zeta.
  fold (folder_name_for (format_latest latest_bl_number)).
  rewrite traced_bind_unfold. cbn [create_drive_folder emit outcome trace].
  rewrite Hfolder. cbv iota beta.
  by rewrite (uploads_succeed _ _ _ Huploads).
Qed.

Section MainPattern.

Variable urlsafe_b64decode : string -> result string.
Variable PdfReader : string -> result (list string).

(** The body of the loop of [main]. *)
Let gather (filename file_data : string)
  (st : option string * list (string * string))
  : run (option string * list (string * string)) :=
  pages ← pure_step (PdfReader file_data);
  let current_bl_number := extract_bl_number_from_pdf pages in
  let latest_bl_number :=
    match fst st with
    | None => Some current_bl_number
    | Some l => Some l
    end in
  mret (latest_bl_number, snd st ++ [(filename, file_data)]).

Lemma gather_quiet filename file_data st : trace (gather filename file_data st) = [].
Proof. unfold gather. rewrite traced_bind_unfold. by destruct (PdfReader file_data). Qed.

Lemma gather_all steps (pages_of : string -> list string) st :
  Forall (fun file => PdfReader (snd file) = Return (pages_of (snd file)))
         (yielded steps) ->
  for_yielded steps st gather
  = Traced (Return (match fst st with
                    | Some l => Some l
                    | None => (fun file => extract_bl_number_from_pdf
                                             (pages_of (snd file)))
                                <$> head (yielded steps)
                    end, snd st ++ yielded steps))
      (calls_of steps).
Proof.
  intros Hread.
  rewrite (for_yielded_pure steps st gather
             (fun file st =>
                (match fst st with
                 | None => Some (extract_bl_number_from_pdf (pages_of (snd file)))
                 | Some l => Some l
                 end, snd st ++ [file]))).
  - destruct st as [latest all]. by rewrite gathered_state.
  - intros [fn data] s Hin. unfold gather. cbn [fst snd].
    rewrite Forall_forall in Hread. specialize (Hread _ Hin).
    cbn [snd] in Hread. by rewrite Hread.
Qed.

Lemma gather_fails steps st :
  Exists (fun file => exists e, PdfReader (snd file) = Raise e) (yielded steps) ->
  exists e, outcome (for_yielded steps st gather) = Raise e.
Proof.
  revert st. induction steps as [|[c|fn data] steps IH]; intros st Hex.
  - by apply Exists_nil in Hex.
  - cbn [for_yielded]. rewrite traced_bind_unfold. cbn [emit outcome].
    by apply IH.
  - cbn [for_yielded]. rewrite traced_bind_unfold.
    change (yielded (Yields fn data :: steps)) with ((fn, data) :: yielded steps) in Hex.
    unfold gather at 1 2 3. rewrite traced_bind_unfold. cbn [pure_step outcome trace].
    destruct (PdfReader data) as [pages|e] eqn:Hpages; [|by exists e].
    cbn [mret traced_ret outcome]. apply IH.
    apply Exists_cons in Hex as [[e He]|Hex]; [|done].
    cbn [snd] in He. congruence.
Qed.

(** X16. [main] names the folder after the first attachment and uploads every
    attachment: when the listing completes and yields at least one file,
    every yielded file is a readable PDF and Drive accepts the calls, [main]
    ends normally; after the calls of the listing it creates one folder,
    named "Shipment Documents - " and the number found in the first file
    yielded, and then uploads every yielded file to it, in the order of the
    listing. *)
Theorem main_names_folder_after_first_file
  (gmail : gmail_service) (drive : drive_service)
  (pages_of : string -> list string)
  (first : string * string) (others : list (string * string))
  (folder_id : string) :
  outcome (get_gmail_attachments urlsafe_b64decode QUERY_TEST_123 gmail)
    = Return tt ->
  yielded (trace (get_gmail_attachments urlsafe_b64decode QUERY_TEST_123 gmail))
    = first :: others ->
  Forall (fun file => PdfReader (snd file) = Return (pages_of (snd file)))
         (first :: others) ->
  files_create_folder drive
    (folder_name_for (extract_bl_number_from_pdf (pages_of (snd first))))
    = Return folder_id ->
  Forall (fun file => files_create_media drive (fst file) folder_id (snd file)
                      = Return tt) (first :: others) ->
  main_pattern urlsafe_b64decode PdfReader gmail drive
  = Traced (Return tt)
      (calls_of (trace (get_gmail_attachments urlsafe_b64decode
                          QUERY_TEST_123 gmail))
       ++ FilesCreateFolder
            (folder_name_for (extract_bl_number_from_pdf (pages_of (snd first))))
          :: (upload_call folder_id <$> first :: others)).
Proof.
  intros Hlist Hfiles Hread Hfolder Huploads.
  unfold main_pattern. fold gather.
  rewrite traced_bind_unfold, for_in_unfold.
  rewrite (gather_all _ pages_of) by by rewrite Hfiles.
  rewrite Hfiles, Hlist. cbn [fst snd head fmap option_fmap option_map app outcome trace].
  rewrite (create_and_upload_succeeds drive _ _ folder_id); [|done..].
  done.
Qed.

(** X17. Nothing reaches Drive unless every attachment has been gathered:
    when the listing raises, or a yielded file is not a readable PDF, or no
    file is yielded, [main] makes no call to Drive (no folder is created, no
    file uploaded). *)
Theorem nothing_uploaded_unless_all_gathered
  (gmail : gmail_service) (drive : drive_service) :
  (exists e,
     outcome (get_gmail_attachments urlsafe_b64decode QUERY_TEST_123 gmail)
     = Raise e)
  \/ Exists (fun file => exists e, PdfReader (snd file) = Raise e)
       (yielded (trace (get_gmail_attachments urlsafe_b64decode
                          QUERY_TEST_123 gmail)))
  \/ yielded (trace (get_gmail_attachments urlsafe_b64decode
                       QUERY_TEST_123 gmail)) = [] ->
  drive_calls (trace (main_pattern urlsafe_b64decode PdfReader gmail drive)) = [].
Proof.
  intros Hcase. unfold main_pattern. fold gather.
  set (gen := get_gmail_attachments urlsafe_b64decode QUERY_TEST_123 gmail) in *.
  assert (Hquiet : forall st,
             drive_calls (trace (for_yielded (trace gen) st gather)) = []).
  { intros st. apply drive_calls_of_gmail, for_yielded_quiet.
    - apply listing_calls_gmail, listing_steps.
    - apply gather_quiet. }
  rewrite traced_bind_unfold, for_in_unfold.
  destruct (outcome (for_yielded (trace gen) (None, []) gather)) as [st|e] eqn:Hloop;
    [|apply Hquiet].
  destruct (outcome gen) as [[]|e] eqn:Hgen; [|apply Hquiet].
  cbn [outcome trace]. rewrite drive_calls_app, Hquiet.
  destruct Hcase as [[e He]|[Hbad|Hnone]]; [done| |].
  - apply (gather_fails _ (None, [])) in Hbad as [e He]. congruence.
  - rewrite (gather_all _ (fun _ => [])) in Hloop by (rewrite Hnone; constructor).
    cbn [outcome] in Hloop. injection Hloop as <-. by rewrite Hnone.
Qed.

End MainPattern.

(** ** [main] of [src/main_1.py] *)

Lemma model_requests_of_requests reqs :
  model_requests (GenerateContent <$> reqs) = reqs
  /\ drive_calls (GenerateContent <$> reqs) = [].
Proof.
  unfold model_requests, drive_calls.
  induction reqs as [|req reqs [IH1 IH2]]; [done|].
  cbn. by rewrite IH1, IH2.
Qed.

Lemma drive_calls_of_uploads folder_id (files : list (string * string)) :
  drive_calls (upload_call folder_id <$> files) = upload_call folder_id <$> files
  /\ model_requests (upload_call folder_id <$> files) = [].
Proof.
  unfold model_requests, drive_calls.
  induction files as [|file files [IH1 IH2]]; [done|].
  cbn. by rewrite IH1, IH2.
Qed.

Section MainLlm.

Variable urlsafe_b64decode : string -> result string.
Variable PdfReader : string -> result (list string).
Variable llm : llm_service.
Variable pages_of : string -> list string.

(** The body of the loop of [main]. *)
Let ask (filename file_data : string)
  (st : option string * list (string * string))
  : run (option string * list (string * string)) :=
  current_bl_number ← bl_number_of_file PdfReader llm file_data;
  let latest_bl_number :=
    match fst st with
    | None => Some current_bl_number
    | Some l => Some l
    end in
  mret (latest_bl_number, snd st ++ [(filename, file_data)]).

Let answer (file : string * string) : string :=
  returned_string (fst (extract_bl_number_llm_tool (pages_of (snd file)) llm)).

Let requests (file : string * string) : list request :=
  snd (extract_bl_number_llm_tool (pages_of (snd file)) llm).

Lemma ask_all steps st :
  Forall listing_step steps ->
  Forall (fun file => PdfReader (snd file) = Return (pages_of (snd file)))
         (yielded steps) ->
  outcome (for_yielded steps st ask)
  = Return (match fst st with
            | Some l => Some l
            | None => answer <$> head (yielded steps)
            end, snd st ++ yielded steps)
  /\ model_requests (trace (for_yielded steps st ask)) = yielded steps ≫= requests
  /\ drive_calls (trace (for_yielded steps st ask)) = [].
Proof.
  intros Hsteps. revert st.
  induction Hsteps as [|[c|fn data] steps Hst _ IH]; intros st Hread.
  - cbn. rewrite app_nil_r. by destruct st as [[l|] all].
  - cbn [for_yielded]. rewrite traced_bind_unfold. cbn [emit outcome trace].
    destruct (IH st Hread) as (-> & Hreq & Hdrive).
    change (yielded (Calls c :: steps)) with (yielded steps).
    rewrite model_requests_app, drive_calls_app, Hreq, Hdrive.
    by destruct c.
  - change (yielded (Yields fn data :: steps)) with ((fn, data) :: yielded steps) in *.
    apply Forall_cons in Hread as [Hdata Hread]. cbn [snd] in Hdata.
    cbn [for_yielded]. rewrite traced_bind_unfold.
    assert (Hask : ask fn data st
                   = Traced (Return (match fst st with
                                     | None => Some (answer (fn, data))
                                     | Some l => Some l
                                     end, snd st ++ [(fn, data)]))
                       (GenerateContent <$> requests (fn, data))).
    { unfold ask, bl_number_of_file, answer, requests. cbn [snd].
      rewrite Hdata.
      destruct (bl_tool_returns (pages_of data) llm) as [out Hout].
      rewrite !traced_bind_unfold. cbn [pure_step outcome trace].
      rewrite Hout. cbn [mret traced_ret outcome trace returned_string].
      by rewrite app_nil_r. }
    rewrite Hask. cbn [outcome trace].
    destruct (IH (match fst st with
                  | None => Some (answer (fn, data))
                  | Some l => Some l
                  end, snd st ++ [(fn, data)]) Hread) as (-> & Hreq & Hdrive).
    rewrite model_requests_app, drive_calls_app, Hreq, Hdrive.
    destruct (model_requests_of_requests (requests (fn, data))) as [-> ->].
    cbn [fst snd head fmap option_fmap option_map].
    split; [|done]. rewrite <- app_assoc. by destruct (fst st).
Qed.

(** X18. [main] of [src/main_1.py] asks the model about every attachment but
    names the folder after the first answer only: when the listing completes
    and yields at least one file, every yielded file is a readable PDF and
    Drive accepts the calls, then whatever the model service does (answer,
    answer without text, raise) [main] ends normally; the requests it sent
    to the model are those of the tool for each yielded file, in the order
    of the listing; and its calls to Drive are one folder creation, named
    after what the tool returned for the first file, followed by the upload
    of every yielded file. *)
Theorem main_llm_asks_for_every_file
  (gmail : gmail_service) (drive : drive_service)
  (first : string * string) (others : list (string * string))
  (folder_id : string) :
  outcome (get_gmail_attachments urlsafe_b64decode QUERY_TEST_123 gmail)
    = Return tt ->
  yielded (trace (get_gmail_attachments urlsafe_b64decode QUERY_TEST_123 gmail))
    = first :: others ->
  Forall (fun file => PdfReader (snd file) = Return (pages_of (snd file)))
         (first :: others) ->
  files_create_folder drive
    (folder_name_for
       (returned_string
          (fst (extract_bl_number_llm_tool (pages_of (snd first)) llm))))
    = Return folder_id ->
  Forall (fun file => files_create_media drive (fst file) folder_id (snd file)
                      = Return tt) (first :: others) ->
  outcome (main_llm urlsafe_b64decode PdfReader gmail llm drive) = Return tt
  /\ model_requests (trace (main_llm urlsafe_b64decode PdfReader gmail llm drive))
     = (first :: others) ≫=
         (fun file => snd (extract_bl_number_llm_tool (pages_of (snd file)) llm))
  /\ drive_calls (trace (main_llm urlsafe_b64decode PdfReader gmail llm drive))
     = FilesCreateFolder
         (folder_name_for
            (returned_string
               (fst (extract_bl_number_llm_tool (pages_of (snd first)) llm))))
       :: (upload_call folder_id <$> first :: others).
Proof.
  intros Hlist Hfiles Hread Hfolder Huploads.
  unfold main_llm. fold ask.
  rewrite traced_bind_unfold, for_in_unfold.
  destruct (ask_all
              (trace (get_gmail_attachments urlsafe_b64decode QUERY_TEST_123 gmail))
              (None, [])) as (-> & Hreq & Hdrive);
    [apply listing_steps|by rewrite Hfiles|].
  rewrite Hlist, Hfiles in *.
  cbn [fst snd head fmap option_fmap option_map app outcome trace].
  rewrite (create_and_upload_succeeds drive _ _ folder_id);
    [|done|exact Hfolder|done].
  cbn [outcome trace]. rewrite model_requests_app, drive_calls_app, Hreq, Hdrive.
  change (FilesCreateFolder ?n :: ?l) with ([FilesCreateFolder n] ++ l).
  rewrite model_requests_app, drive_calls_app.
  destruct (drive_calls_of_uploads folder_id (first :: others)) as [-> ->].
  split; [done|]. split; [|done]. by rewrite app_nil_r.
Qed.

End MainLlm.

(** ** Runs on an inbox of one message *)

Lemma main_names_folder_after_first_file_witness :
  main_pattern Return one_page_reader inbox_one_message accepting_drive
  = Traced (Return tt)
      [MessagesList QUERY_TEST_123; MessagesGet "m1"; AttachmentsGet "m1" "att-2";
       FilesCreateFolder "Shipment Documents - BL-MEDU1234567";
       FilesCreateMedia "BL.pdf" "folder-1" "B/L: MEDU1234567 shipper";
       FilesCreateMedia "Invoice.PDF" "folder-1" "Invoice 42"].
Proof.
  rewrite (main_names_folder_after_first_file Return one_page_reader
             inbox_one_message accepting_drive (fun file_data => [file_data])
             ("BL.pdf", "B/L: MEDU1234567 shipper") [("Invoice.PDF", "Invoice 42")]
             "folder-1").
  - by vm_compute.
  - by vm_compute.
  - by vm_compute.
  - by repeat constructor.
  - reflexivity.
  - by repeat constructor.
Defined.

Lemma nothing_uploaded_unless_all_gathered_witness :
  drive_calls (trace (main_pattern Return unreadable inbox_one_message
                        accepting_drive)) = [].
Proof.
  apply (nothing_uploaded_unless_all_gathered Return unreadable
           inbox_one_message accepting_drive).
  right. left. vm_compute. constructor. by eexists.
Defined.

Lemma main_llm_asks_for_every_file_witness :
  outcome (main_llm Return one_page_reader inbox_one_message service_down
             accepting_drive) = Return tt
  /\ length (model_requests
               (trace (main_llm Return one_page_reader inbox_one_message
                         service_down accepting_drive))) = 2
  /\ drive_calls (trace (main_llm Return one_page_reader inbox_one_message
                           service_down accepting_drive))
     = [FilesCreateFolder "Shipment Documents - BL_Number_Not_Found";
        FilesCreateMedia "BL.pdf" "folder-1" "B/L: MEDU1234567 shipper";
        FilesCreateMedia "Invoice.PDF" "folder-1" "Invoice 42"].
Proof.
  destruct (main_llm_asks_for_every_file Return one_page_reader service_down
              (fun file_data => [file_data]) inbox_one_message accepting_drive
              ("BL.pdf", "B/L: MEDU1234567 shipper") [("Invoice.PDF", "Invoice 42")]
              "folder-1") as (Hout & Hreq & Hdrive).
  - by vm_compute.
  - by vm_compute.
  - by repeat constructor.
  - reflexivity.
  - by repeat constructor.
  - rewrite Hout, Hreq, Hdrive. by vm_compute.
Defined.

(** ** The details the structured tool returns *)

Section DetailsShape.

Variable json_loads : string -> result pyval.

Lemma parse_details_shape text v :
  parse_details_response json_loads text = Return (Some v) ->
  exists d bl cn,
    v = PyDict d
    /\ d !! "BL_Number" = Some (PyStr (upper (strip bl)))
    /\ d !! "Container_Number" = Some (PyStr (upper (strip cn))).
Proof.
  unfold parse_details_response. destruct text as [raw|]; [|done].
  cbn [as_str mbind result_bind].
  destruct (re_search_braces (strip raw)) as [span|]; [|done].
  destruct (json_loads span) as [[| | | | |l|d]|e]; try done.
  cbn [mbind result_bind py_get].
  destruct (default (PyStr "NOT_FOUND") (d !! "BL_Number")) as [| | | |bl| |];
    try done.
  cbn [py_strip mbind result_bind py_setitem py_get].
  destruct (default (PyStr "NOT_FOUND")
              (<["BL_Number" := PyStr (upper (strip bl))]> d !! "Container_Number"))
    as [| | | |cn| |]; try done.
  cbn [py_strip mbind result_bind py_setitem]. intros [= <-].
  exists (<["Container_Number" := PyStr (upper (strip cn))]>
            (<["BL_Number" := PyStr (upper (strip bl))]> d)), bl, cn.
  split; [done|]. split.
  - rewrite lookup_insert_ne by discriminate. by rewrite lookup_insert_eq.
  - by rewrite lookup_insert_eq.
Qed.

Lemma details_tool_shape pages llm v :
  fst (extract_shipping_details_llm_tool json_loads pages llm) = Return (Some v) ->
  exists d bl cn,
    v = PyDict d
    /\ d !! "BL_Number" = Some (PyStr (upper (strip bl)))
    /\ d !! "Container_Number" = Some (PyStr (upper (strip cn))).
Proof.
  unfold extract_shipping_details_llm_tool.
  destruct (negb (truthy (strip (extract_text pages)))); cbn [fst]; [done|].
  destruct (llm _) as [text|e]; cbn [mbind result_bind try_except]; [|done].
  destruct (parse_details_response json_loads text) as [o|e] eqn:Hparse;
    cbn [try_except]; [|done].
  intros [= ->]. by apply (parse_details_shape text).
Qed.

(** X19. Whatever the model answers and whatever the JSON parser makes of
    it, details that the structured tool returns are a dict that has both
    keys "BL_Number" and "Container_Number", each with a string that is the
    upper-cased form of a trimmed string: reading the two keys, as [main]
    does, cannot fail, and neither string has a lower-case letter. *)
Theorem returned_details_have_both_fields
  (pages : list string) (llm : llm_service) (details : pyval) :
  fst (extract_shipping_details_llm_tool json_loads pages llm)
    = Return (Some details) ->
  exists bl_number container_number,
    py_getitem details "BL_Number" = Return (PyStr bl_number)
    /\ py_getitem details "Container_Number" = Return (PyStr container_number)
    /\ is_upper bl_number = true /\ is_upper container_number = true.
Proof.
  intros Htool.
  destruct (details_tool_shape _ _ _ Htool) as (d & bl & cn & -> & Hbl & Hcn).
  exists (upper (strip bl)), (upper (strip cn)). cbn [py_getitem].
  rewrite Hbl, Hcn. repeat split; apply upper_is_upper.
Qed.

End DetailsShape.

Lemma returned_details_have_both_fields_witness :
  exists bl_number container_number,
    py_getitem
      (PyDict (<["Container_Number" := PyStr "TEMU7654321"]>
                 (<["BL_Number" := PyStr "MEDU1234567"]> ∅)))
      "BL_Number" = Return (PyStr bl_number)
    /\ py_getitem
         (PyDict (<["Container_Number" := PyStr "TEMU7654321"]>
                    (<["BL_Number" := PyStr "MEDU1234567"]> ∅)))
         "Container_Number" = Return (PyStr container_number)
    /\ is_upper bl_number = true /\ is_upper container_number = true.
Proof.
  apply (returned_details_have_both_fields JsonFragment.loads
           ["B/L: MEDU1234567 shipper"] answering_service).
  by vm_compute.
Defined.

(** ** [main] of [src/main_2.py] *)

Lemma for_yielded_Forall {S} (P : call -> Prop) steps (s : S) body :
  Forall P (calls_of steps) ->
  (forall filename file_data s, Forall P (trace (body filename file_data s))) ->
  Forall P (trace (for_yielded steps s body)).
Proof.
  intros Hcalls Hbody. revert s Hcalls.
  induction steps as [|[c|fn data] steps IH]; intros s Hcalls; [constructor|..].
  - cbn [for_yielded]. apply Forall_cons in Hcalls as [Hc Hcalls].
    apply traced_bind_Forall; [by repeat constructor|]. intros _. by apply IH.
  - cbn [for_yielded]. apply traced_bind_Forall; [done|].
    intros s'. by apply IH.
Qed.

Lemma gathering_calls_quiet cs :
  Forall gathering_call cs -> drive_calls cs = [] /\ sheet_calls cs = [].
Proof.
  induction 1 as [|c cs Hc _ [IH1 IH2]]; [done|].
  unfold drive_calls, sheet_calls in *. cbn. rewrite IH1, IH2.
  by destruct c.
Qed.

Lemma sheet_calls_app cs cs' :
  sheet_calls (cs ++ cs') = sheet_calls cs ++ sheet_calls cs'.
Proof. apply omap_app. Qed.




Lemma traced_bind_raised {E A B} (e : exn) (t : list E) (k : A -> traced E B) :
  Traced (Raise e) t ≫= k = Traced (Raise e) t.
Proof. reflexivity. Qed.

Lemma traced_bind_pure {E A B} (a : A) (k : A -> traced E B) :
  pure_step (Return a) ≫= k = k a.
Proof.
  rewrite traced_bind_unfold. cbn [pure_step outcome trace]. by destruct (k a).
Qed.

Section MainDetails.

Variable urlsafe_b64decode : string -> result string.
Variable PdfReader : string -> result (list string).
Variable json_loads : string -> result pyval.
Variable llm : llm_service.
Variable pages_of : string -> list string.
Context {dynamic : PyDynamic}.

Let details (file : string * string) : result (option pyval) :=
  fst (extract_shipping_details_llm_tool json_loads (pages_of (snd file)) llm).

Let kept (files : list (string * string)) : list (string * string) :=
  filter (fun file => has_details (details file) = true) files.

Let gather := gather_details PdfReader json_loads llm.

Lemma gather_details_calls filename file_data st :
  Forall gathering_call (trace (gather filename file_data st)).
Proof.
  unfold gather, gather_details, details_of_file.
  apply traced_bind_Forall.
  - apply traced_bind_Forall; [by destruct (PdfReader file_data)|].
    intros pages. cbn [trace].
    induction (snd (extract_shipping_details_llm_tool json_loads pages llm));
      by constructor.
  - intros [v|]; [|constructor].
    apply traced_bind_Forall; [|constructor].
    destruct (fst (fst st)); try constructor.
    apply traced_bind_Forall; [by destruct (py_getitem v "BL_Number")|].
    intros bl. apply traced_bind_Forall; [|constructor].
    by destruct (py_getitem v "Container_Number").
Qed.

Lemma gather_loop_calls steps st :
  Forall listing_step steps ->
  drive_calls (trace (for_yielded steps st gather)) = []
  /\ sheet_calls (trace (for_yielded steps st gather)) = [].
Proof.
  intros Hsteps. apply gathering_calls_quiet, for_yielded_Forall.
  - eapply Forall_impl; [by apply listing_calls_gmail|]. by intros [].
  - apply gather_details_calls.
Qed.

Lemma gather_details_outcome fn data st :
  PdfReader data = Return (pages_of data) ->
  outcome (gather fn data st)
  = match details (fn, data) with
    | Return None => Return st
    | Return (Some v) =>
        match fst (fst st) with
        | PyNone =>
            bl ← py_getitem v "BL_Number";
            cn ← py_getitem v "Container_Number";
            Return (bl, cn, snd st ++ [(fn, data)])
        | _ => Return (fst st, snd st ++ [(fn, data)])
        end
    | Raise e => Raise e
    end.
Proof.
  intros Hread. unfold gather, gather_details, details_of_file, details.
  cbn [snd]. rewrite Hread.
  repeat (rewrite traced_bind_unfold; cbn [pure_step outcome trace]).
  destruct (fst (extract_shipping_details_llm_tool _ _ _)) as [[v|]|e]; [|done..].
  destruct st as [[latest cn0] files0]. cbn [fst snd].
  destruct latest; try done.
  repeat (rewrite traced_bind_unfold; cbn [pure_step outcome trace]).
  destruct (py_getitem v "BL_Number") as [bl|e]; [|done].
  cbn [mbind result_bind].
  repeat (rewrite traced_bind_unfold; cbn [pure_step outcome trace]).
  by destruct (py_getitem v "Container_Number") as [cn|e].
Qed.

Lemma gather_started steps b cn files0 :
  Forall (fun file => PdfReader (snd file) = Return (pages_of (snd file)))
         (yielded steps) ->
  outcome (for_yielded steps (PyStr b, cn, files0) gather)
  = Return (PyStr b, cn, files0 ++ kept (yielded steps)).
Proof.
  revert files0. induction steps as [|[c|fn data] steps IH]; intros files0 Hread.
  - cbn. by rewrite app_nil_r.
  - cbn [for_yielded]. rewrite traced_bind_unfold. cbn [emit outcome].
    by apply IH.
  - change (yielded (Yields fn data :: steps)) with ((fn, data) :: yielded steps) in *.
    apply Forall_cons in Hread as [Hdata Hread]. cbn [snd] in Hdata.
    cbn [for_yielded]. rewrite traced_bind_unfold.
    rewrite (gather_details_outcome _ _ _ Hdata). unfold kept.
    destruct (details (fn, data)) as [[v|]|e] eqn:Hd; cbn [fst snd].
    + rewrite filter_cons_True by by rewrite Hd.
      rewrite IH by done. by rewrite <- app_assoc.
    + rewrite filter_cons_False by by rewrite Hd. by apply IH.
    + exfalso. unfold details in Hd.
      destruct (details_tool_returns json_loads (pages_of data) llm) as [o Ho].
      cbn [snd] in Hd. congruence.
Qed.

Lemma gather_fresh steps cn0 files0 :
  Forall (fun file => PdfReader (snd file) = Return (pages_of (snd file)))
         (yielded steps) ->
  match kept (yielded steps) with
  | [] => outcome (for_yielded steps (PyNone, cn0, files0) gather)
          = Return (PyNone, cn0, files0)
  | first :: others =>
      forall d b c,
        details first = Return (Some (PyDict d)) ->
        d !! "BL_Number" = Some (PyStr b) ->
        d !! "Container_Number" = Some (PyStr c) ->
        outcome (for_yielded steps (PyNone, cn0, files0) gather)
        = Return (PyStr b, PyStr c, files0 ++ first :: others)
  end.
Proof.
  induction steps as [|[c|fn data] steps IH]; intros Hread.
  - done.
  - cbn [for_yielded]. specialize (IH Hread).
    change (yielded (Calls c :: steps)) with (yielded steps).
    destruct (kept (yielded steps)) as [|first others].
    + by rewrite traced_bind_unfold.
    + intros d b c' Hd Hb Hc. rewrite traced_bind_unfold. by apply (IH d).
  - change (yielded (Yields fn data :: steps)) with ((fn, data) :: yielded steps) in *.
    apply Forall_cons in Hread as [Hdata Hread]. cbn [snd] in Hdata.
    specialize (IH Hread).
    assert (Hstep := gather_details_outcome fn data (PyNone, cn0, files0) Hdata).
    unfold kept in *.
    destruct (details (fn, data)) as [[v|]|e] eqn:Hd; cbn [fst snd] in Hstep.
    + rewrite filter_cons_True by (cbv beta; by rewrite Hd).
      intros d b c Hfirst Hb Hc. rewrite Hd in Hfirst.
      injection Hfirst as ->. cbn [py_getitem] in Hstep.
      rewrite Hb, Hc in Hstep. cbn [mbind result_bind] in Hstep.
      cbn [for_yielded]. rewrite traced_bind_unfold, Hstep.
      cbn [outcome]. rewrite gather_started by done.
      by rewrite <- app_assoc.
    + rewrite filter_cons_False by (cbv beta; by rewrite Hd).
      destruct (filter _ (yielded steps)) as [|first others].
      * cbn [for_yielded]. by rewrite traced_bind_unfold, Hstep.
      * intros d b c Hfirst Hb Hc. cbn [for_yielded].
        rewrite traced_bind_unfold, Hstep. by apply (IH d).
    + exfalso. unfold details in Hd.
      destruct (details_tool_returns json_loads (pages_of data) llm) as [o Ho].
      cbn [snd] in Hd. congruence.
Qed.





Lemma none_kept files :
  Forall (fun file => details file = Return None) files -> kept files = [].
Proof.
  unfold kept. induction 1 as [|file files Hfile _ IH]; [done|].
  rewrite filter_cons_False; [exact IH|]. cbv beta. by rewrite Hfile.
Qed.

Lemma lookup_and_upload_unread sheets drive b c files e :
  files <> [] ->
  c <> "" ->
  contains c "NOT_FOUND" = false ->
  values_get sheets (ValuesGet SPREADSHEET_ID SHEET_RANGE) = Raise e ->
  lookup_and_upload sheets drive (PyStr b, PyStr c, files)
  = Traced (Raise e) [SpreadsheetsValues (ValuesGet SPREADSHEET_ID SHEET_RANGE)].
Proof.
  intros Hfiles Hc Hfound Hget.
  unfold lookup_and_upload. cbn [fst snd].
  rewrite bool_decide_eq_false_2 by done.
  rewrite py_bool_str. cbn [py_contains]. rewrite Hfound.
  replace (truthy c) with true by by destruct c.
  cbn [mbind result_bind negb]. rewrite traced_bind_pure.
  unfold get_sheet_data, emit. rewrite Hget.
  by rewrite !traced_bind_raised.
Qed.

Lemma main_details_unfold gmail sheets drive :
  Forall (fun file => PdfReader (snd file) = Return (pages_of (snd file)))
    (yielded (trace (get_gmail_attachments urlsafe_b64decode QUERY_TEST_1234 gmail))) ->
  outcome (get_gmail_attachments urlsafe_b64decode QUERY_TEST_1234 gmail)
    = Return tt ->
  forall st,
    outcome (for_yielded
               (trace (get_gmail_attachments urlsafe_b64decode QUERY_TEST_1234 gmail))
               (PyNone, PyNone, []) gather) = Return st ->
    outcome (main_details urlsafe_b64decode PdfReader json_loads gmail llm sheets drive)
      = outcome (lookup_and_upload sheets drive st)
    /\ sheet_calls (trace (main_details urlsafe_b64decode PdfReader json_loads
                             gmail llm sheets drive))
       = sheet_calls (trace (lookup_and_upload sheets drive st))
    /\ drive_calls (trace (main_details urlsafe_b64decode PdfReader json_loads
                             gmail llm sheets drive))
       = drive_calls (trace (lookup_and_upload sheets drive st)).
Proof.
  intros Hread Hlist st Hloop. unfold main_details. fold gather.
  rewrite traced_bind_unfold, for_in_unfold, Hloop, Hlist. cbn [outcome trace].
  rewrite sheet_calls_app, drive_calls_app.
  destruct (gather_loop_calls
              (trace (get_gmail_attachments urlsafe_b64decode QUERY_TEST_1234 gmail))
              (PyNone, PyNone, []) (listing_steps _ _ _)) as [-> ->].
  done.
Qed.


(** X21. Without details there is no folder: when the listing completes,
    every yielded file is a readable PDF and the tool returns no details for
    any of them (the model is down, say), [main] of [src/main_2.py] ends
    normally and calls neither the spreadsheet nor Drive. *)
Theorem main_details_without_details_does_nothing
  (gmail : gmail_service) (sheets : sheets_service) (drive : drive_service) :
  outcome (get_gmail_attachments urlsafe_b64decode QUERY_TEST_1234 gmail)
    = Return tt ->
  Forall (fun file => PdfReader (snd file) = Return (pages_of (snd file)))
    (yielded (trace (get_gmail_attachments urlsafe_b64decode QUERY_TEST_1234 gmail))) ->
  Forall (fun file =>
            fst (extract_shipping_details_llm_tool json_loads
                   (pages_of (snd file)) llm) = Return None)
    (yielded (trace (get_gmail_attachments urlsafe_b64decode QUERY_TEST_1234 gmail))) ->
  outcome (main_details urlsafe_b64decode PdfReader json_loads gmail llm sheets drive)
    = Return tt
  /\ sheet_calls (trace (main_details urlsafe_b64decode PdfReader json_loads
                           gmail llm sheets drive)) = []
  /\ drive_calls (trace (main_details urlsafe_b64decode PdfReader json_loads
                           gmail llm sheets drive)) = [].
Proof.
  intros Hlist Hread Hnone.
  pose proof (gather_fresh _ PyNone [] Hread) as Hloop.
  rewrite (none_kept _ Hnone) in Hloop.
  destruct (main_details_unfold gmail sheets drive Hread Hlist _ Hloop)
    as (-> & -> & ->).
  unfold lookup_and_upload. cbn [snd].
  by rewrite bool_decide_eq_true_2 by done.
Qed.

(** X22. A spreadsheet that cannot be read stops [main] of [src/main_2.py]
    before Drive: when the files are gathered as above, the container number
    of the first file with details is not empty and does not contain
    "NOT_FOUND", and reading the sheet raises, [main] raises that exception
    after the one call to the spreadsheet, and no folder is created and no
    file uploaded. *)
Theorem main_details_sheet_failure_stops_before_drive
  (gmail : gmail_service) (sheets : sheets_service) (drive : drive_service)
  (first : string * string) (others : list (string * string))
  (d : gmap string pyval) (bl_number container_number : string) (e : exn) :
  outcome (get_gmail_attachments urlsafe_b64decode QUERY_TEST_1234 gmail)
    = Return tt ->
  Forall (fun file => PdfReader (snd file) = Return (pages_of (snd file)))
    (yielded (trace (get_gmail_attachments urlsafe_b64decode QUERY_TEST_1234 gmail))) ->
  filter (fun file =>
            has_details
              (fst (extract_shipping_details_llm_tool json_loads
                      (pages_of (snd file)) llm)) = true)
    (yielded (trace (get_gmail_attachments urlsafe_b64decode QUERY_TEST_1234 gmail)))
    = first :: others ->
  fst (extract_shipping_details_llm_tool json_loads (pages_of (snd first)) llm)
    = Return (Some (PyDict d)) ->
  d !! "BL_Number" = Some (PyStr bl_number) ->
  d !! "Container_Number" = Some (PyStr container_number) ->
  container_number <> "" ->
  contains container_number "NOT_FOUND" = false ->
  values_get sheets (ValuesGet SPREADSHEET_ID SHEET_RANGE) = Raise e ->
  outcome (main_details urlsafe_b64decode PdfReader json_loads gmail llm sheets drive)
    = Raise e
  /\ sheet_calls (trace (main_details urlsafe_b64decode PdfReader json_loads
                           gmail llm sheets drive))
     = [ValuesGet SPREADSHEET_ID SHEET_RANGE]
  /\ drive_calls (trace (main_details urlsafe_b64decode PdfReader json_loads
                           gmail llm sheets drive)) = [].
Proof.
  intros Hlist Hread Hkept Hfirst Hbl Hcn Hc Hfound Hget.
  pose proof (gather_fresh _ PyNone [] Hread) as Hloop.
  unfold kept, details in Hloop. rewrite Hkept in Hloop.
  specialize (Hloop d bl_number container_number Hfirst Hbl Hcn).
  destruct (main_details_unfold gmail sheets drive Hread Hlist _ Hloop)
    as (-> & -> & ->).
  cbn [app].
  by rewrite (lookup_and_upload_unread sheets drive _ _ _ e).
Qed.

End MainDetails.

(** ** Runs of [main] of [src/main_2.py] on the inbox of one message *)


Lemma main_details_without_details_does_nothing_witness :
  outcome (main_details (dynamic := on_strings) Return one_page_reader
             JsonFragment.loads inbox_one_message service_down
             sheet_with_container accepting_drive) = Return tt
  /\ sheet_calls (trace (main_details (dynamic := on_strings) Return
                           one_page_reader JsonFragment.loads inbox_one_message
                           service_down sheet_with_container accepting_drive)) = []
  /\ drive_calls (trace (main_details (dynamic := on_strings) Return
                           one_page_reader JsonFragment.loads inbox_one_message
                           service_down sheet_with_container accepting_drive)) = [].
Proof.
  apply (main_details_without_details_does_nothing Return one_page_reader
           JsonFragment.loads service_down (fun file_data => [file_data])
           (dynamic := on_strings)
           inbox_one_message sheet_with_container accepting_drive).
  - by vm_compute.
  - by repeat constructor.
  - vm_compute. by repeat constructor.
Defined.

Lemma main_details_sheet_failure_stops_before_drive_witness :
  outcome (main_details (dynamic := on_strings) Return one_page_reader
             JsonFragment.loads inbox_one_message selective_service
             sheet_out_of_reach accepting_drive)
    = Raise (OtherException "HttpError" "403")
  /\ sheet_calls (trace (main_details (dynamic := on_strings) Return
                           one_page_reader JsonFragment.loads inbox_one_message
                           selective_service sheet_out_of_reach accepting_drive))
     = [ValuesGet SPREADSHEET_ID SHEET_RANGE]
  /\ drive_calls (trace (main_details (dynamic := on_strings) Return
                           one_page_reader JsonFragment.loads inbox_one_message
                           selective_service sheet_out_of_reach accepting_drive))
     = [].
Proof.
  apply (main_details_sheet_failure_stops_before_drive Return one_page_reader
           JsonFragment.loads selective_service (fun file_data => [file_data])
           (dynamic := on_strings)
           inbox_one_message sheet_out_of_reach accepting_drive
           ("BL.pdf", "B/L: MEDU1234567 shipper") []
           (<["Container_Number" := PyStr "TEMU7654321"]>
              (<["BL_Number" := PyStr "MEDU1234567"]> ∅))
           "MEDU1234567" "TEMU7654321" (OtherException "HttpError" "403")).
  - by vm_compute.
  - by repeat constructor.
  - by vm_compute.
  - by vm_compute.
  - by vm_compute.
  - by vm_compute.
  - discriminate.
  - by vm_compute.
  - reflexivity.
Defined.
